(** * dbus-python-client-gen: invoker generation

    A shallow embedding of [src/dbus_python_client_gen/_invokers.py]:
    the builders that turn an introspection element into classes of
    method and property invokers, and the invokers themselves.

    Python exceptions are a result type, a dict that is read as a map is
    a [gmap], keyword arguments are an association list in the order the
    caller supplied them, and the two collaborators (the transformer
    registry and the proxy object) leave their calls in an event trace. *)

From Stdlib Require Import List Permutation Sorted.
From stdpp Require Import gmap strings list fin_maps sorting.

Local Open Scope string_scope.
Local Open Scope list_scope.
Set Warnings "-register-all,-clear-no-such-hyp".

(** ** Python values, exceptions and results *)

(** The values that travel through an invoker: native arguments, wire
    values and whatever the transport returns. *)
Inductive PyObj : Type :=
| PyNone
| PyBool (b : bool)
| PyInt (z : Z)
| PyStr (s : string)
| PyTuple (items : list PyObj)
| PyList (items : list PyObj).

(** The exceptions the module raises or lets through. [TypeError] is
    the one of the interpreter, when a call cannot be bound or a class
    cannot be created; its message is not kept. [OtherError] is whatever
    a collaborator raises. *)
Inductive exn : Type :=
| DPClientGenerationError (msg : string)
| DPClientRuntimeError (msg : string)
| KeyError (key : string)
| ValueError (msg : string)
| TypeError
| OtherError (descr : string).

Inductive Res (A : Type) : Type :=
| Ok (a : A)
| Raise (e : exn).
Arguments Ok {A} a.
Arguments Raise {A} e.

Definition is_generation_error (e : exn) : bool :=
  match e with DPClientGenerationError _ => true | _ => false end.

Definition is_runtime_error (e : exn) : bool :=
  match e with DPClientRuntimeError _ => true | _ => false end.

(** ** The collaborators and the trace of their calls *)

(** A call on the proxy object: the member fetched with [getattr], the
    positional arguments and the [dbus_interface] keyword. *)
Record Call : Type := mkCall {
  call_member : string;
  call_args : list PyObj;
  call_dbus_interface : string
}.

Inductive Event : Type :=
| Lookup (signature : string)      (* xformers(signature) *)
| Dispatch (c : Call).             (* a call on the proxy object *)

Definition Trace := list Event.

Definition is_dispatch (ev : Event) : bool :=
  match ev with Dispatch _ => true | Lookup _ => false end.

Definition is_lookup (ev : Event) : bool :=
  match ev with Lookup _ => true | Dispatch _ => false end.

(** What [xformers(signature)] returns: the module calls it in
    [build_method] and takes its item 0 in [build_property_setter]. *)
Record Xformer : Type := mkXformer {
  xf_call : list PyObj -> Res (list PyObj);
  xf_item : nat -> Res (PyObj -> Res PyObj)
}.

(** The proxy object answers a call knowing the calls made so far. *)
Definition ProxyObject := Trace -> Call -> Res PyObj.

(** ** State and exceptions *)

(** A computation over a state [S] that returns or raises; the state
    reached when it raises is kept, as a mutated dict is in Python. *)
Definition M (S A : Type) : Type := S -> Res A * S.

Definition ret {S A} (a : A) : M S A := fun s => (Ok a, s).

Definition raise {S A} (e : exn) : M S A := fun s => (Raise e, s).

Definition bind {S A B} (m : M S A) (k : A -> M S B) : M S B :=
  fun s =>
    match m s with
    | (Ok a, s') => k a s'
    | (Raise e, s') => (Raise e, s')
    end.

Definition lift {S A} (r : Res A) : M S A := fun s => (r, s).

Definition modify {S} (f : S -> S) : M S unit := fun s => (Ok tt, f s).

Declare Scope py_scope.
Delimit Scope py_scope with py.
Notation "x <- m ;; k" := (bind m (fun x => k))
  (at level 100, m at next level, right associativity) : py_scope.
Notation "m ;;; k" := (bind m (fun _ => k))
  (at level 100, right associativity) : py_scope.

(** [for x in l: body(x)] *)
Fixpoint for_each {S A} (body : A -> M S unit) (l : list A) : M S unit :=
  match l with
  | [] => ret tt
  | x :: l' => (body x ;;; for_each body l')%py
  end.

(** ** Python builtins *)

Module Py.

(** [sep.join(l)] *)
Definition join (sep : string) (l : list string) : string :=
  String.concat sep l.

(** [l.index(x)]: the first position of [x]; raises ValueError when
    [x] is not in [l]. *)
Fixpoint index (l : list string) (x : string) : Res nat :=
  match l with
  | [] => Raise (ValueError "not in list")
  | y :: l' =>
      if String.eqb y x then Ok 0
      else match index l' x with
           | Ok i => Ok (S i)
           | Raise e => Raise e
           end
  end.

(** [d[key]] on a dict of strings *)
Definition getitem (d : gmap string string) (key : string) : Res string :=
  match d !! key with
  | Some v => Ok v
  | None => Raise (KeyError key)
  end.

(** [[f(x) for x in l]]: stops at the first element that raises *)
Fixpoint comprehension {A B} (f : A -> Res B) (l : list A) : Res (list B) :=
  match l with
  | [] => Ok []
  | x :: l' =>
      match f x with
      | Raise e => Raise e
      | Ok b =>
          match comprehension f l' with
          | Raise e => Raise e
          | Ok bs => Ok (b :: bs)
          end
      end
  end.

(** Stable insertion of a keyed element in front of a sorted list: it
    goes before the first element whose key is not smaller. *)
Fixpoint insert_keyed {A} (x : nat * A) (l : list (nat * A)) : list (nat * A) :=
  match l with
  | [] => [x]
  | y :: l' =>
      if Nat.leb (fst x) (fst y) then x :: y :: l'
      else y :: insert_keyed x l'
  end.

(** The keyed elements in ascending key order, elements of equal key
    in their original order. *)
Fixpoint sort_keyed {A} (l : list (nat * A)) : list (nat * A) :=
  match l with
  | [] => []
  | x :: l' => insert_keyed x (sort_keyed l')
  end.

(** [sorted(l, key=key)]: every key is computed first, then the
    elements are sorted on it; the sort is stable. *)
Definition sorted {A} (key : A -> Res nat) (l : list A) : Res (list A) :=
  match comprehension (fun x => match key x with
                                | Ok k => Ok (k, x)
                                | Raise e => Raise e
                                end) l with
  | Ok decorated => Ok (map snd (sort_keyed decorated))
  | Raise e => Raise e
  end.

(** [frozenset(l)] *)
Definition frozenset (l : list string) : gset string := list_to_set l.

End Py.

(** ** xml.etree.ElementTree *)

Module ET.

Inductive Element : Type :=
  mkElement (tag : string) (attrib : gmap string string)
            (children : list Element).

Definition tag (e : Element) : string :=
  match e with mkElement t _ _ => t end.

Definition attrib (e : Element) : gmap string string :=
  match e with mkElement _ a _ => a end.

Definition children (e : Element) : list Element :=
  match e with mkElement _ _ c => c end.

(** [e.findall('./t')]: the children of tag [t], in document order *)
Definition findall (t : string) (e : Element) : list Element :=
  List.filter (fun c => String.eqb (tag c) t) (children e).

(** [e.findall('./t[@a="v"]')]: the children of tag [t] whose
    attribute [a] is [v] *)
Definition findall_attr (t a v : string) (e : Element) : list Element :=
  List.filter
    (fun c => String.eqb (tag c) t &&
              match attrib c !! a with
              | Some v' => String.eqb v' v
              | None => false
              end)
    (children e).

End ET.

Import ET.

(** ** Namespaces and classes *)

(** A namespace is the dict a class body fills; a builder runs on the
    namespace and on the trace of collaborator calls. *)
Definition Frame (V : Type) : Type := (gmap string V * Trace)%type.

(** [namespace[key] = v] *)
Definition setitem {V} (key : string) (v : V) : M (Frame V) unit :=
  modify (fun '(ns, t) => (<[key := v]> ns, t)).

Record Class (V : Type) : Type := mkClass {
  class_name : string;
  class_namespace : gmap string V
}.
Arguments mkClass {V} _ _.
Arguments class_name {V} _.
Arguments class_namespace {V} _.

(** [type(name, (object,), namespace)] on the members that this module
    puts in a namespace, static methods and classes: under the name
    __slots__ such a member is not iterable, under __qualname__ it is
    not a str, under __classcell__ it is not a cell, and the class is
    not created. The names are attribute values of an XML document (or
    the literals Methods and Properties), where the null character
    cannot occur. *)
Definition type_new {V} (name : string) (namespace : gmap string V)
  : Res (Class V) :=
  match namespace !! "__slots__", namespace !! "__qualname__",
        namespace !! "__classcell__" with
  | None, None, None => Ok (mkClass name namespace)
  | _, _, _ => Raise TypeError
  end.

(** [types.new_class(name, bases=(object,), exec_body=exec_body)]: the
    body runs on a fresh namespace, then the class is created from it;
    the class exists only when both return. *)
Definition new_class {VO VI} (name : string) (exec_body : M (Frame VI) unit)
  : M (Frame VO) (Class VI) :=
  fun '(nso, t) =>
    match exec_body (∅, t) with
    | (Ok _, (nsi, t')) => (type_new name nsi, (nso, t'))
    | (Raise e, (_, t')) => (Raise e, (nso, t'))
    end.

(** [try: v = e.attrib[key] except KeyError as err: raise error from err] *)
Definition attrib_or_raise (e : Element) (key : string) (error : exn) : Res string :=
  match attrib e !! key with
  | Some v => Ok v
  | None => Raise error
  end.

(** ** The generated invokers *)

(** [dbus.PROPERTIES_IFACE] *)
Definition PROPERTIES_IFACE : string := "org.freedesktop.DBus.Properties".

(** The call leaves a [Dispatch] event and returns or raises what the
    proxy object answers. *)
Definition dispatch (proxy_object : ProxyObject) (c : Call) : M Trace PyObj :=
  fun t => (proxy_object t c, t ++ [Dispatch c]).

(** The closure [dbus_func] of [build_method] with the variables it
    captures. *)
Record MethodInvoker : Type := mkMethodInvoker {
  mi_interface_name : string;
  mi_name : string;
  mi_arg_names : list string;
  mi_func : Xformer
}.

(** The closures [dbus_func] of [build_property_getter] and of
    [build_property_setter] with the variables they capture. *)
Inductive Accessor : Type :=
| Getter (interface_name name : string)
| Setter (interface_name name : string) (xformer : PyObj -> Res PyObj).

Definition key_mismatch (arg_names keys : list string) : exn :=
  DPClientRuntimeError
    ("Key mismatch: " ++ Py.join ", " arg_names ++ " != " ++ Py.join ", " keys)%string.

(** The call [dbus_func(proxy_object, **kwargs)] of the function that
    [build_method] returns, on a positional proxy object and the keyword
    arguments [kwargs], in the order the caller gave them. A keyword
    named as the first parameter cannot be bound: the call raises before
    the body runs. *)
Definition dbus_func (self : MethodInvoker) (proxy_object : ProxyObject)
    (kwargs : list (string * PyObj)) : M Trace PyObj :=
  let arg_names := mi_arg_names self in
  if bool_decide ("proxy_object" ∈ map fst kwargs) then raise TypeError
  else if
    negb (bool_decide (Py.frozenset arg_names = Py.frozenset (map fst kwargs)))
  then raise (key_mismatch arg_names (map fst kwargs))
  else
    (items <- lift (Py.sorted (fun x => Py.index arg_names (fst x)) kwargs) ;;
     let args := map snd items in
     xformed_args <- lift (xf_call (mi_func self) args) ;;
     dispatch proxy_object
       (mkCall (mi_name self) xformed_args (mi_interface_name self)))%py.

(** [dbus_func(proxy_object)] of [build_property_getter] *)
Definition getter_dbus_func (interface_name name : string)
    (proxy_object : ProxyObject) : M Trace PyObj :=
  dispatch proxy_object
    (mkCall "Get" [PyStr interface_name; PyStr name] PROPERTIES_IFACE).

(** [dbus_func(proxy_object, value)] of [build_property_setter] *)
Definition setter_dbus_func (interface_name name : string)
    (xformer : PyObj -> Res PyObj) (proxy_object : ProxyObject)
    (value : PyObj) : M Trace PyObj :=
  (v <- lift (xformer value) ;;
   dispatch proxy_object
     (mkCall "Set" [PyStr interface_name; PyStr name; v] PROPERTIES_IFACE))%py.

(** ** The builders *)

Definition MethodsClass : Type := Class MethodInvoker.
Definition PropertyClass : Type := Class Accessor.
Definition PropertiesClass : Type := Class PropertyClass.

(** What the namespace of the interface class holds. *)
Inductive Member : Type :=
| MethodsMember (c : MethodsClass)
| PropertiesMember (c : PropertiesClass).

Section Generation.

(** [into_dbus_python.xformers], the transformer registry *)
Variable xformers : string -> Res Xformer.

(** The call [xformers(signature)] *)
Definition call_xformers {V} (signature : string) : M (Frame V) Xformer :=
  fun '(ns, t) => (xformers signature, (ns, t ++ [Lookup signature])).

Definition build_property_getter (interface_name : string) (spec : Element)
  : Res Accessor :=
  match attrib_or_raise spec "name"
          (DPClientGenerationError "No name found for property.") with
  | Raise e => Raise e
  | Ok name => Ok (Getter interface_name name)
  end.

Definition build_property_setter {V} (interface_name : string) (spec : Element)
  : M (Frame V) Accessor :=
  (name <- lift (attrib_or_raise spec "name"
                   (DPClientGenerationError "No name found for property.")) ;;
   signature <- lift (attrib_or_raise spec "type"
                   (DPClientGenerationError "No type found for property.")) ;;
   xf <- call_xformers signature ;;
   xformer <- lift (xf_item xf 0) ;;
   ret (Setter interface_name name xformer))%py.

(** The body of the loop [for prop in spec.findall('./property')] *)
Definition prop_builder_body (interface_name : string) (prop : Element)
  : M (Frame PropertyClass) unit :=
  (access <- lift (attrib_or_raise prop "access"
                     (DPClientGenerationError "No access found for property.")) ;;
   prop_method_builder <-
     (if String.eqb access "read" then
        getter <- lift (build_property_getter interface_name prop) ;;
        ret (setitem "Get" getter)
      else if String.eqb access "write" then
        setter <- build_property_setter interface_name prop ;;
        ret (setitem "Set" setter)
      else
        getter <- lift (build_property_getter interface_name prop) ;;
        setter <- build_property_setter interface_name prop ;;
        ret (setitem "Get" getter ;;; setitem "Set" setter)) ;;
   name <- lift (attrib_or_raise prop "name"
                   (DPClientGenerationError "No name found for property.")) ;;
   cls <- new_class name prop_method_builder ;;
   setitem name cls)%py.

(** [builder(namespace)] of [prop_builder] *)
Definition prop_builder_builder (interface_name : string) (spec : Element)
  : M (Frame PropertyClass) unit :=
  for_each (prop_builder_body interface_name) (findall "property" spec).

Definition prop_builder (spec : Element) : Res (M (Frame PropertyClass) unit) :=
  match attrib_or_raise spec "name"
          (DPClientGenerationError "No name found for interface.") with
  | Raise e => Raise e
  | Ok interface_name => Ok (prop_builder_builder interface_name spec)
  end.

Definition build_method {V} (interface_name : string) (spec : Element)
  : M (Frame V) MethodInvoker :=
  (name <- lift (attrib_or_raise spec "name"
                   (DPClientGenerationError "No name found for method.")) ;;
   let inargs := findall_attr "arg" "direction" "in" spec in
   arg_names <- lift (Py.comprehension
                        (fun e => Py.getitem (attrib e) "name") inargs) ;;
   types <- lift (Py.comprehension
                    (fun e => Py.getitem (attrib e) "type") inargs) ;;
   let signature := Py.join "" types in
   func <- call_xformers signature ;;
   ret (mkMethodInvoker interface_name name arg_names func))%py.

(** The body of the loop [for method in spec.findall('./method')] *)
Definition method_builder_body (interface_name : string) (method : Element)
  : M (Frame MethodInvoker) unit :=
  (name <- lift (attrib_or_raise method "name"
                   (DPClientGenerationError "No name found for method.")) ;;
   invoker <- build_method interface_name method ;;
   setitem name invoker)%py.

(** [builder(namespace)] of [method_builder] *)
Definition method_builder_builder (interface_name : string) (spec : Element)
  : M (Frame MethodInvoker) unit :=
  for_each (method_builder_body interface_name) (findall "method" spec).

Definition method_builder (spec : Element) : Res (M (Frame MethodInvoker) unit) :=
  match attrib_or_raise spec "name"
          (DPClientGenerationError "No name found for interface.") with
  | Raise e => Raise e
  | Ok interface_name => Ok (method_builder_builder interface_name spec)
  end.

(** [builder(namespace)] of [dbus_python_invoker_builder]; the function
    itself only returns this builder. *)
Definition dbus_python_invoker_builder (spec : Element)
  : M (Frame Member) unit :=
  (methods_body <- lift (method_builder spec) ;;
   methods <- new_class "Methods" methods_body ;;
   setitem "Methods" (MethodsMember methods) ;;;
   properties_body <- lift (prop_builder spec) ;;
   properties <- new_class "Properties" properties_body ;;
   setitem "Properties" (PropertiesMember properties))%py.

End Generation.

(** ** Notions used to state the properties *)

(** The order on which [sort_keyed] sorts. *)
Definition key_le {A} (x y : nat * A) : Prop := fst x <= fst y.

(** [x] is declared before [y]: its first position among the declared
    argument names is the smaller one. *)
Definition declared_before (arg_names : list string) (x y : string) : Prop :=
  exists i j, Py.index arg_names x = Ok i /\ Py.index arg_names y = Ok j /\ i < j.

(** The call that [dbus_func] makes once the values are in order. *)
Definition marshalled_call (self : MethodInvoker) (proxy_object : ProxyObject)
    (args : list PyObj) : M Trace PyObj :=
  (xformed_args <- lift (xf_call (mi_func self) args) ;;
   dispatch proxy_object
     (mkCall (mi_name self) xformed_args (mi_interface_name self)))%py.

(** The position on which [sorted] compares an item of [kwargs]. *)
Definition pos (arg_names : list string) (x : string * PyObj) : nat :=
  match Py.index arg_names (fst x) with Ok i => i | Raise _ => 0 end.

Definition decorate (arg_names : list string) (kwargs : list (string * PyObj))
  : list (nat * (string * PyObj)) :=
  map (fun x => (pos arg_names x, x)) kwargs.

(** The free variables of [dbus_func] are cells of the closure, which
    outlive a call. [invoke] is the same call written on a state that
    holds the cells beside the trace: each use of a free variable reads
    its cell, and the collaborators are called on the trace. *)
Definition read_cell {A} (cell : MethodInvoker -> A)
  : M (MethodInvoker * Trace) A :=
  fun '(cells, t) => (Ok (cell cells), (cells, t)).

Definition on_trace {A} (m : M Trace A) : M (MethodInvoker * Trace) A :=
  fun '(cells, t) => let '(r, t') := m t in (r, (cells, t')).

Definition invoke (proxy_object : ProxyObject) (kwargs : list (string * PyObj))
  : M (MethodInvoker * Trace) PyObj :=
  if bool_decide ("proxy_object" ∈ map fst kwargs) then raise TypeError
  else
    (arg_names <- read_cell mi_arg_names ;;
     if negb (bool_decide
                (Py.frozenset arg_names = Py.frozenset (map fst kwargs)))
     then
       arg_names' <- read_cell mi_arg_names ;;
       raise (key_mismatch arg_names' (map fst kwargs))
     else
       items <- (arg_names' <- read_cell mi_arg_names ;;
                 lift (Py.sorted (fun x => Py.index arg_names' (fst x)) kwargs)) ;;
       let args := map snd items in
       func <- read_cell mi_func ;;
       xformed_args <- lift (xf_call func args) ;;
       name <- read_cell mi_name ;;
       interface_name <- read_cell mi_interface_name ;;
       on_trace (dispatch proxy_object (mkCall name xformed_args interface_name)))%py.

(** A caller that makes one call after the other on the same closure
    and proxy object, and catches what each call raises. *)
Fixpoint session (proxy_object : ProxyObject)
    (calls : list (list (string * PyObj))) (s : MethodInvoker * Trace)
  : list (Res PyObj) * (MethodInvoker * Trace) :=
  match calls with
  | [] => ([], s)
  | kwargs :: calls' =>
      let '(r, s1) := invoke proxy_object kwargs s in
      let '(rs, s2) := session proxy_object calls' s1 in
      (r :: rs, s2)
  end.

(** The first definition on which the body of a loop raises, and what
    it raises. *)
Definition first_failure {S A} (body : A -> M S unit) (l : list A) (s : S)
    (x : A) (e : exn) : Prop :=
  exists before after s1 s2,
    l = before ++ x :: after
    /\ for_each body before s = (Ok tt, s1)
    /\ body x s1 = (Raise e, s2).

(** The names under which [type_new] cannot take a member of this
    module. *)
Definition reserved (name : string) : bool :=
  String.eqb name "__slots__" || String.eqb name "__qualname__"
  || String.eqb name "__classcell__".

(** The encoder of a property setter: item 0 of what the registry holds
    for the signature. *)
Definition setter_xformer (xformers : string -> Res Xformer) (signature : string)
  : Res (PyObj -> Res PyObj) :=
  match xformers signature with
  | Ok xf => xf_item xf 0
  | Raise e => Raise e
  end.

(** The namespace of the class of a property, by its access. *)
Definition accessors (interface_name access name : string)
    (xformer : PyObj -> Res PyObj) : gmap string Accessor :=
  if String.eqb access "read" then
    {[ "Get" := Getter interface_name name ]}
  else if String.eqb access "write" then
    {[ "Set" := Setter interface_name name xformer ]}
  else
    <[ "Set" := Setter interface_name name xformer ]>
      {[ "Get" := Getter interface_name name ]}.


(** ** Specifications and collaborators to run the builders on *)

Module Examples.

Definition attrs (l : list (string * string)) : gmap string string :=
  list_to_map l.

Definition arg (name type direction : string) : Element :=
  mkElement "arg"
    (attrs [("name", name); ("type", type); ("direction", direction)]) [].

(** The method of the docstring of [method_builder] *)
Definition create_pool : Element :=
  mkElement "method" (attrs [("name", "CreatePool")])
    [arg "name" "s" "in"; arg "redundancy" "(bq)" "in";
     arg "force" "b" "in"; arg "devices" "as" "in";
     arg "result" "(oas)" "out"; arg "return_code" "q" "out";
     arg "return_string" "s" "out"].

(** A second method of that name, with one inbound argument *)
Definition create_pool_again : Element :=
  mkElement "method" (attrs [("name", "CreatePool")]) [arg "name" "s" "in"].

(** The property of the docstring of [prop_builder] *)
Definition version : Element :=
  mkElement "property"
    (attrs [("name", "Version"); ("type", "s"); ("access", "read")]) [].

(** The same property without its type *)
Definition version_untyped : Element :=
  mkElement "property" (attrs [("name", "Version"); ("access", "read")]) [].

(** A property that can be written, without its type *)
Definition label_untyped : Element :=
  mkElement "property" (attrs [("name", "Label"); ("access", "write")]) [].

(** A property with no attribute at all *)
Definition bare_property : Element := mkElement "property" ∅ [].

(** A method whose inbound argument has no name *)
Definition unnamed_arg_method : Element :=
  mkElement "method" (attrs [("name", "Rename")])
    [mkElement "arg" (attrs [("type", "s"); ("direction", "in")]) []].

Definition interface (members : list Element) : Element :=
  mkElement "interface" (attrs [("name", "org.storage.Manager")]) members.

(** A registry that holds the identity for every signature *)
Definition identity : Xformer :=
  mkXformer (fun args => Ok args) (fun _ => Ok (fun v => Ok v)).

Definition registry (signature : string) : Res Xformer := Ok identity.

(** A proxy object that returns None to every call *)
Definition proxy : ProxyObject := fun _ _ => Ok PyNone.

Definition create_pool_invoker : MethodInvoker :=
  mkMethodInvoker "org.storage.Manager" "CreatePool"
    ["name"; "redundancy"; "force"; "devices"] identity.

(** The keyword arguments of a call, in the order of a caller and in
    the declared order *)
Definition supplied : list (string * PyObj) :=
  [("force", PyBool false); ("devices", PyList [PyStr "/dev/a"]);
   ("name", PyStr "pool1"); ("redundancy", PyTuple [PyInt 0; PyInt 1])].

Definition declared : list (string * PyObj) :=
  [("name", PyStr "pool1"); ("redundancy", PyTuple [PyInt 0; PyInt 1]);
   ("force", PyBool false); ("devices", PyList [PyStr "/dev/a"])].

(** A call with a key that is not declared *)
Definition misspelt : list (string * PyObj) :=
  [("name", PyStr "pool1"); ("redundancy", PyTuple [PyInt 0; PyInt 1]);
   ("force", PyBool false); ("device", PyList [PyStr "/dev/a"])].

End Examples.

(** The signature [build_method] looks up for a method: the types of
    its inbound arguments, joined in their order. *)
Definition inbound_signature (spec : Element) : Res string :=
  match Py.comprehension (fun e => Py.getitem (attrib e) "type")
          (findall_attr "arg" "direction" "in" spec) with
  | Ok types => Ok (Py.join "" types)
  | Raise e => Raise e
  end.

(** The properties for which [prop_builder] builds a setter: those
    whose access is not read. *)
Definition has_setter (prop : Element) : bool :=
  match attrib prop !! "access" with
  | Some access => negb (String.eqb access "read")
  | None => false
  end.

(** More specifications and collaborators *)
Module Samples.

(** A method without inbound argument *)
Definition get_version : Element :=
  mkElement "method" (Examples.attrs [("name", "GetVersion")])
    [Examples.arg "version" "s" "out"].

(** A method that declares the same inbound name twice *)
Definition twice : Element :=
  mkElement "method" (Examples.attrs [("name", "Twice")])
    [Examples.arg "x" "s" "in"; Examples.arg "x" "u" "in"].

(** A method whose inbound argument has no type *)
Definition untyped_arg_method : Element :=
  mkElement "method" (Examples.attrs [("name", "Rename")])
    [mkElement "arg" (Examples.attrs [("name", "to"); ("direction", "in")]) []].

(** A method without a name *)
Definition unnamed_method : Element :=
  mkElement "method" ∅ [Examples.arg "name" "s" "in"].

(** A property that can be read and written *)
Definition label : Element :=
  mkElement "property"
    (Examples.attrs [("name", "Label"); ("type", "s"); ("access", "readwrite")]) [].

(** An interface element without a name *)
Definition unnamed_interface : Element :=
  mkElement "interface" ∅ [Examples.create_pool; Examples.version].

(** A registry that knows no signature *)
Definition empty_registry (signature : string) : Res Xformer :=
  Raise (OtherError "IntoDPError").

(** A registry whose encoders raise on every value *)
Definition failing : Xformer :=
  mkXformer (fun _ => Raise (OtherError "IntoDPError"))
            (fun _ => Ok (fun _ => Raise (OtherError "IntoDPError"))).

Definition get_version_invoker : MethodInvoker :=
  mkMethodInvoker "org.storage.Manager" "GetVersion" [] Examples.identity.

Definition twice_invoker : MethodInvoker :=
  mkMethodInvoker "org.storage.Manager" "Twice" ["x"; "x"] Examples.identity.

(** A property that can only be written *)
Definition secret : Element :=
  mkElement "property"
    (Examples.attrs [("name", "Secret"); ("type", "s"); ("access", "write")]) [].

(** A second property of the name Version, which can also be written *)
Definition version_again : Element :=
  mkElement "property"
    (Examples.attrs [("name", "Version"); ("type", "s"); ("access", "readwrite")])
    [].

(** A method whose inbound argument has the name of the first parameter
    of [dbus_func] *)
Definition attach : Element :=
  mkElement "method" (Examples.attrs [("name", "Attach")])
    [Examples.arg "proxy_object" "o" "in"].

Definition attach_invoker : MethodInvoker :=
  mkMethodInvoker "org.storage.Manager" "Attach" ["proxy_object"]
    Examples.identity.

(** A method with a name under which no class can hold it *)
Definition slots : Element :=
  mkElement "method" (Examples.attrs [("name", "__slots__")]) [].

(** The keyword arguments of a call with one keyword too many, named as
    the first parameter of [dbus_func] *)
Definition with_proxy_keyword : list (string * PyObj) :=
  Examples.supplied ++ [("proxy_object", PyNone)].

End Samples.
(** * Properties *)

(** ** The state and exception monad *)

Lemma bind_ok {S A B} (m : M S A) (k : A -> M S B) s a s' :
  m s = (Ok a, s') -> bind m k s = k a s'.
Proof. intros H. unfold bind. by rewrite H. Qed.

Lemma bind_raise {S A B} (m : M S A) (k : A -> M S B) s e s' :
  m s = (Raise e, s') -> bind m k s = (Raise e, s').
Proof. intros H. unfold bind. by rewrite H. Qed.

Lemma for_each_app {S A} (body : A -> M S unit) l1 l2 s :
  for_each body (l1 ++ l2) s = bind (for_each body l1) (fun _ => for_each body l2) s.
Proof.
  revert s. induction l1 as [|x l1 IH]; intros s; simpl; [done|].
  unfold bind in *. destruct (body x s) as [[[]|e] s1]; [|done].
  apply IH.
Qed.

(** The loop raises what the body raises on the first element it fails
    on. *)
Lemma for_each_raise {S A} (body : A -> M S unit) l1 x l2 s s1 e s2 :
  for_each body l1 s = (Ok tt, s1) ->
  body x s1 = (Raise e, s2) ->
  for_each body (l1 ++ x :: l2) s = (Raise e, s2).
Proof.
  intros H1 Hx. rewrite for_each_app. rewrite (bind_ok _ _ _ _ _ H1).
  simpl. by rewrite (bind_raise _ _ _ _ _ Hx).
Qed.

(** ** Python builtins *)

Module PyFacts.
Import Py.

Lemma index_Ok l x : x ∈ l -> exists i, index l x = Ok i /\ l !! i = Some x.
Proof.
  induction l as [|y l IH]; intros Hx; [by apply elem_of_nil in Hx|].
  simpl. destruct (String.eqb_spec y x) as [->|Hne].
  - by exists 0.
  - apply elem_of_cons in Hx as [->|Hx]; [done|].
    destruct (IH Hx) as (i & -> & Hi). by exists (S i).
Qed.

Lemma index_lookup l x i : index l x = Ok i -> l !! i = Some x.
Proof.
  revert i. induction l as [|y l IH]; intros i; simpl; [done|].
  destruct (String.eqb_spec y x) as [->|Hne].
  - by intros [= <-].
  - destruct (index l x) as [j|e] eqn:Hj; [|done].
    intros [= <-]. simpl. by apply IH.
Qed.

Lemma index_inj l x y i : index l x = Ok i -> index l y = Ok i -> x = y.
Proof.
  intros Hx Hy. apply index_lookup in Hx, Hy. congruence.
Qed.

(** On a list without repetition [index] is the position. *)
Lemma index_NoDup l x i : NoDup l -> l !! i = Some x -> index l x = Ok i.
Proof.
  intros Hnd Hi.
  destruct (index_Ok l x) as (j & Hj & Hj'); [by eapply list_elem_of_lookup_2|].
  by rewrite (NoDup_lookup l i j x Hnd Hi Hj').
Qed.

Lemma comprehension_Ok {A B} (f : A -> Res B) (g : A -> B) l :
  (forall x, x ∈ l -> f x = Ok (g x)) -> comprehension f l = Ok (map g l).
Proof.
  induction l as [|x l IH]; intros H; simpl; [done|].
  rewrite H by left. rewrite IH; [done|]. intros y Hy. apply H. by right.
Qed.

Lemma comprehension_Forall2 {A B} (f : A -> Res B) l bs :
  comprehension f l = Ok bs -> Forall2 (fun x b => f x = Ok b) l bs.
Proof.
  revert bs. induction l as [|x l IH]; intros bs; simpl.
  - intros [= <-]. constructor.
  - destruct (f x) as [b|e] eqn:Hx; [|done].
    destruct (comprehension f l) as [bs'|e]; [|done].
    intros [= <-]. constructor; auto.
Qed.

Lemma insert_keyed_perm {A} (x : nat * A) l : insert_keyed x l ≡ₚ x :: l.
Proof.
  induction l as [|y l IH]; simpl; [done|].
  destruct (fst x <=? fst y)%nat; [done|].
  rewrite IH. apply perm_swap.
Qed.

Lemma sort_keyed_perm {A} (l : list (nat * A)) : sort_keyed l ≡ₚ l.
Proof.
  induction l as [|x l IH]; simpl; [done|].
  by rewrite insert_keyed_perm, IH.
Qed.

Lemma insert_keyed_sorted {A} (x : nat * A) l :
  StronglySorted key_le l -> StronglySorted key_le (insert_keyed x l).
Proof.
  induction 1 as [|y l Hl IH Hy]; simpl.
  - repeat constructor.
  - destruct (Nat.leb_spec (fst x) (fst y)) as [Hle|Hlt].
    + constructor; [by constructor|].
      constructor; [done|].
      eapply Forall_impl; [exact Hy|]. unfold key_le. intros; simpl in *; lia.
    + constructor; [done|].
      rewrite insert_keyed_perm. constructor; [unfold key_le; lia|done].
Qed.

Lemma sort_keyed_sorted {A} (l : list (nat * A)) :
  StronglySorted key_le (sort_keyed l).
Proof.
  induction l; simpl; [constructor|by apply insert_keyed_sorted].
Qed.

(** Keyed lists with the same elements and no repeated key sort to the
    same list: the order of the input does not show. *)
Lemma sort_keyed_unique {A} (l1 l2 : list (nat * A)) :
  NoDup (map fst l1) -> l1 ≡ₚ l2 -> sort_keyed l1 = sort_keyed l2.
Proof.
  intros Hnd Hp.
  apply (StronglySorted_unique_strong key_le);
    [|apply sort_keyed_sorted..|by rewrite !sort_keyed_perm].
  intros x1 x2 H1 H2 Hle1 Hle2. unfold key_le in *.
  rewrite sort_keyed_perm in H1. rewrite sort_keyed_perm, <- Hp in H2.
  assert (fst x1 = fst x2) as Hk by lia.
  apply list_elem_of_lookup in H1 as [i Hi], H2 as [j Hj].
  assert (i = j) as ->; [|congruence].
  eapply NoDup_lookup; [exact Hnd| |].
  - rewrite list_lookup_fmap, Hi. done.
  - rewrite list_lookup_fmap, Hj. simpl. by rewrite Hk.
Qed.

End PyFacts.

(** ** Invoking a method *)

Section Invocation.
Import Py PyFacts.

Variable self : MethodInvoker.
Variable proxy_object : ProxyObject.

Local Abbreviation arg_names := (mi_arg_names self).
Local Abbreviation pos := (pos (mi_arg_names self)).
Local Abbreviation decorate := (decorate (mi_arg_names self)).

Lemma keys_declared kwargs x :
  frozenset arg_names = frozenset (map fst kwargs) ->
  x ∈ kwargs -> index arg_names (fst x) = Ok (pos x).
Proof.
  intros Hset Hx.
  assert (fst x ∈ arg_names) as Hin.
  { apply (elem_of_list_to_set (C := gset string)). unfold frozenset in Hset.
    rewrite Hset. apply elem_of_list_to_set. by apply list_elem_of_fmap_2. }
  destruct (index_Ok _ _ Hin) as (i & Hi & _). unfold pos. by rewrite Hi.
Qed.

Lemma sorted_kwargs kwargs :
  frozenset arg_names = frozenset (map fst kwargs) ->
  sorted (fun x => index arg_names (fst x)) kwargs
  = Ok (map snd (sort_keyed (decorate kwargs))).
Proof.
  intros Hset. unfold sorted.
  rewrite (comprehension_Ok _ (fun x => (pos x, x))); [done|].
  intros x Hx. by rewrite (keys_declared kwargs x Hset Hx).
Qed.

Lemma dbus_func_unbound kwargs t :
  "proxy_object" ∈ map fst kwargs ->
  dbus_func self proxy_object kwargs t = (Raise TypeError, t).
Proof.
  intros Hkey. unfold dbus_func. by rewrite bool_decide_eq_true_2.
Qed.

Lemma dbus_func_matching kwargs t :
  "proxy_object" ∉ map fst kwargs ->
  frozenset arg_names = frozenset (map fst kwargs) ->
  dbus_func self proxy_object kwargs t
  = marshalled_call self proxy_object
      (map snd (map snd (sort_keyed (decorate kwargs)))) t.
Proof.
  intros Hkey Hset. unfold dbus_func.
  rewrite bool_decide_eq_false_2 by done.
  rewrite bool_decide_eq_true_2 by done. simpl.
  unfold bind at 1. unfold lift at 1. by rewrite sorted_kwargs.
Qed.

Lemma decorate_NoDup kwargs :
  frozenset arg_names = frozenset (map fst kwargs) ->
  NoDup (map fst kwargs) -> NoDup (map fst (decorate kwargs)).
Proof.
  intros Hset Hnd. unfold decorate. rewrite map_map. simpl.
  apply NoDup_fmap_2_strong; [|by eapply NoDup_fmap_1].
  intros x y Hx Hy Hxy.
  pose proof (keys_declared _ _ Hset Hx) as Hix.
  pose proof (keys_declared _ _ Hset Hy) as Hiy.
  rewrite <- Hxy in Hiy. pose proof (index_inj _ _ _ _ Hix Hiy) as Hk.
  apply list_elem_of_lookup in Hx as [i Hi], Hy as [j Hj].
  assert (i = j) as ->; [|congruence].
  eapply NoDup_lookup; [exact Hnd| |]; rewrite list_lookup_fmap.
  - by rewrite Hi.
  - rewrite Hj. simpl. by rewrite Hk.
Qed.

Lemma sorted_in_declared_order (L : list (nat * (string * PyObj))) :
  StronglySorted key_le L ->
  NoDup (map fst L) ->
  Forall (fun p => index arg_names (fst (snd p)) = Ok (fst p)) L ->
  StronglySorted (fun x y => declared_before arg_names (fst x) (fst y))
    (map snd L).
Proof.
  induction 1 as [|p L HL IH Hp]; intros Hnd Hidx; simpl; [constructor|].
  apply NoDup_cons in Hnd as [Hnotin Hnd].
  apply Forall_cons in Hidx as [Hi Hidx].
  constructor; [by apply IH|].
  apply Forall_fmap, Forall_forall. intros q Hq. simpl.
  exists (fst p), (fst q). split; [done|]. split.
  - by apply (proj1 (Forall_forall _ _) Hidx).
  - pose proof (proj1 (Forall_forall _ _) Hp q Hq) as Hle. unfold key_le in Hle.
    assert (fst p <> fst q); [|lia].
    intros Heq. apply Hnotin. rewrite Heq. by apply list_elem_of_fmap_2.
Qed.

(** A list without repetition is sorted on the positions of its own
    elements. *)
Lemma declared_names_sorted (pre suf : list string) :
  NoDup (pre ++ suf) -> StronglySorted (declared_before (pre ++ suf)) suf.
Proof.
  revert pre. induction suf as [|x suf IH]; intros pre Hnd; [constructor|].
  constructor.
  - replace (pre ++ x :: suf) with ((pre ++ [x]) ++ suf) in *
      by (by rewrite <- app_assoc).
    by apply IH.
  - apply Forall_forall. intros y Hy.
    apply list_elem_of_lookup in Hy as [j Hj].
    exists (length pre), (length pre + S j). split; [|split; [|lia]].
    + apply index_NoDup; [done|]. by rewrite list_lookup_middle.
    + apply index_NoDup; [done|].
      rewrite lookup_app_r by lia.
      replace (length pre + S j - length pre) with (S j) by lia. done.
Qed.

Lemma keys_of_declared (kwargs : list (string * PyObj)) (x : string) :
  frozenset arg_names = frozenset (map fst kwargs) ->
  x ∈ map fst kwargs <-> x ∈ arg_names.
Proof.
  intros Hset. rewrite <- !(elem_of_list_to_set (C := gset string)).
  unfold frozenset in Hset. by rewrite Hset.
Qed.

(** C1, as the code has it. When the keys of [kwargs] are the declared
    argument names, the call does not depend on the order in which the
    caller supplied them. When no declared name is proxy_object, the
    items are put in the order of the declared names, their values go
    through the captured encoder, and the encoded values are
    dispatched; when one is, the call raises the type error of the
    binding, in any order. *)
Theorem dbus_func_order_invariant (kwargs kwargs' : list (string * PyObj)) t :
  NoDup (map fst kwargs) ->
  kwargs ≡ₚ kwargs' ->
  frozenset arg_names = frozenset (map fst kwargs) ->
  dbus_func self proxy_object kwargs' t = dbus_func self proxy_object kwargs t
  /\ ("proxy_object" ∈ arg_names ->
      dbus_func self proxy_object kwargs t = (Raise TypeError, t))
  /\ ("proxy_object" ∉ arg_names ->
      exists items,
        items ≡ₚ kwargs
        /\ StronglySorted
             (fun x y => declared_before arg_names (fst x) (fst y)) items
        /\ (NoDup arg_names -> map fst items = arg_names)
        /\ dbus_func self proxy_object kwargs t
           = marshalled_call self proxy_object (map snd items) t).
Proof.
  intros Hnd Hperm Hset.
  assert (map fst kwargs ≡ₚ map fst kwargs') as Hkeys by (by apply fmap_Permutation).
  assert (frozenset arg_names = frozenset (map fst kwargs')) as Hset'.
  { rewrite Hset. unfold frozenset. by apply list_to_set_perm_L. }
  assert (sort_keyed (decorate kwargs) = sort_keyed (decorate kwargs')) as Hsort.
  { apply sort_keyed_unique; [by apply decorate_NoDup|].
    unfold decorate. by apply fmap_Permutation. }
  split_and!.
  - destruct (decide ("proxy_object" ∈ map fst kwargs)) as [Hkey|Hkey].
    + rewrite !dbus_func_unbound; [done..|]. by rewrite <- Hkeys.
    + rewrite !dbus_func_matching; [by rewrite Hsort|done..|by rewrite <- Hkeys|done].
  - intros Hkey. apply dbus_func_unbound. by apply keys_of_declared.
  - intros Hkey.
    assert ("proxy_object" ∉ map fst kwargs) as Hkey'.
    { intros H. by apply Hkey, (keys_of_declared kwargs). }
    exists (map snd (sort_keyed (decorate kwargs))).
    assert (map snd (sort_keyed (decorate kwargs)) ≡ₚ kwargs) as Hitems.
    { rewrite sort_keyed_perm. unfold decorate. rewrite map_map. simpl.
      by rewrite map_id. }
    assert (StronglySorted
              (fun x y => declared_before arg_names (fst x) (fst y))
              (map snd (sort_keyed (decorate kwargs)))) as Hsorted.
    { apply sorted_in_declared_order; [apply sort_keyed_sorted| |].
      - rewrite sort_keyed_perm. by apply decorate_NoDup.
      - rewrite sort_keyed_perm. unfold decorate.
        apply Forall_fmap, Forall_forall. intros x Hx. simpl.
        by apply (keys_declared kwargs). }
    split; [done|]. split; [done|]. split; [|by apply dbus_func_matching].
    intros Hdecl.
    apply (StronglySorted_unique_strong (declared_before arg_names)).
    + intros x y _ _ (i & j & Hi & Hj & Hij) (j' & i' & Hj' & Hi' & Hji).
      rewrite Hi in Hi'. rewrite Hj in Hj'. simplify_eq. lia.
    + clear -Hsorted. induction Hsorted as [|x l _ IH Hx]; simpl; [constructor|].
      constructor; [done|]. by apply Forall_fmap.
    + by apply (declared_names_sorted []).
    + apply NoDup_Permutation; [|done|].
      * rewrite Hitems. done.
      * intros x. rewrite Hitems. by apply keys_of_declared.
Qed.

Lemma dbus_func_mismatching kwargs t :
  "proxy_object" ∉ map fst kwargs ->
  frozenset arg_names <> frozenset (map fst kwargs) ->
  dbus_func self proxy_object kwargs t
  = (Raise (key_mismatch arg_names (map fst kwargs)), t).
Proof.
  intros Hkey Hset. unfold dbus_func.
  rewrite bool_decide_eq_false_2 by done. by rewrite bool_decide_eq_false_2.
Qed.

(** A call leaves at most one event, a dispatch. *)
Lemma dbus_func_trace kwargs t :
  snd (dbus_func self proxy_object kwargs t) = t
  \/ exists c, snd (dbus_func self proxy_object kwargs t) = t ++ [Dispatch c].
Proof.
  destruct (decide ("proxy_object" ∈ map fst kwargs)) as [Hkey|Hkey];
    [rewrite dbus_func_unbound by done; by left|].
  destruct (decide (frozenset arg_names = frozenset (map fst kwargs))) as [Hset|Hset].
  - rewrite dbus_func_matching by done. unfold marshalled_call, bind, lift.
    destruct (xf_call _ _); [right|left]; simpl; eauto.
  - rewrite dbus_func_mismatching by done. by left.
Qed.

(** C2, as the code has it. A call with a keyword named proxy_object
    raises the type error of the binding. Without such a keyword, when
    the keys of [kwargs] are not the declared argument names the call
    raises the runtime error that names both lists. In both cases the
    trace is left as it was, so the proxy object was not called. When
    the keys are the declared names, and the collaborators do not raise
    it themselves, no runtime error is raised. *)
Theorem dbus_func_key_mismatch (kwargs : list (string * PyObj)) t :
  (forall args e, xf_call (mi_func self) args = Raise e ->
                  is_runtime_error e = false) ->
  (forall t' c e, proxy_object t' c = Raise e -> is_runtime_error e = false) ->
  ("proxy_object" ∈ map fst kwargs ->
     dbus_func self proxy_object kwargs t = (Raise TypeError, t))
  /\ ("proxy_object" ∉ map fst kwargs ->
      frozenset arg_names <> frozenset (map fst kwargs) ->
      dbus_func self proxy_object kwargs t
      = (Raise (DPClientRuntimeError
                  ("Key mismatch: " ++ join ", " arg_names ++ " != "
                     ++ join ", " (map fst kwargs))%string), t))
  /\ (frozenset arg_names = frozenset (map fst kwargs) ->
      forall e, fst (dbus_func self proxy_object kwargs t) = Raise e ->
                is_runtime_error e = false).
Proof.
  intros Hxf Hproxy.
  split; [apply dbus_func_unbound|]. split; [apply dbus_func_mismatching|].
  intros Hset e.
  destruct (decide ("proxy_object" ∈ map fst kwargs)) as [Hkey|Hkey].
  { rewrite dbus_func_unbound by done. by intros [= <-]. }
  rewrite dbus_func_matching by done.
  unfold marshalled_call, bind, lift, dispatch.
  destruct (xf_call _ _) as [args|e'] eqn:Hargs; simpl.
  - apply Hproxy.
  - intros [= <-]. by eapply Hxf.
Qed.

(** A call leaves the cells of the closure as they were, and is the
    call of [dbus_func] on what they hold. *)
Lemma invoke_dbus_func (cells : MethodInvoker) kwargs t :
  invoke proxy_object kwargs (cells, t)
  = (fst (dbus_func cells proxy_object kwargs t),
     (cells, snd (dbus_func cells proxy_object kwargs t))).
Proof.
  unfold invoke, dbus_func.
  destruct (bool_decide ("proxy_object" ∈ map fst kwargs)); [done|].
  unfold bind at 1. unfold read_cell at 1.
  destruct (bool_decide (frozenset (mi_arg_names cells)
                         = frozenset (map fst kwargs))); simpl; [|done].
  unfold bind, read_cell, lift, on_trace, dispatch.
  destruct (sorted _ kwargs) as [items|e]; [|done].
  by destruct (xf_call (mi_func cells) (map snd items)).
Qed.

(** The calls of a caller leave the cells of the closure as they
    were. *)
Lemma session_cells calls t :
  fst (snd (session proxy_object calls (self, t))) = self.
Proof.
  revert t. induction calls as [|kwargs calls IH]; intros t; [done|].
  simpl. rewrite invoke_dbus_func.
  destruct (dbus_func self proxy_object kwargs t) as [r t1]. simpl.
  specialize (IH t1). by destruct (session proxy_object calls (self, t1)).
Qed.

Lemma session_app calls1 calls2 s :
  session proxy_object (calls1 ++ calls2) s
  = let '(rs1, s1) := session proxy_object calls1 s in
    let '(rs2, s2) := session proxy_object calls2 s1 in
    (rs1 ++ rs2, s2).
Proof.
  revert s. induction calls1 as [|kwargs calls1 IH]; intros s; simpl.
  - by destruct (session proxy_object calls2 s).
  - destruct (invoke proxy_object kwargs s) as [r s1]. rewrite IH.
    destruct (session proxy_object calls1 s1) as [rs1 s2].
    by destruct (session proxy_object calls2 s2).
Qed.

Lemma session_length calls s :
  length (fst (session proxy_object calls s)) = length calls.
Proof.
  revert s. induction calls as [|kwargs calls IH]; intros s; [done|].
  simpl. destruct (invoke proxy_object kwargs s) as [r s1].
  specialize (IH s1). destruct (session proxy_object calls s1). simpl in *.
  by rewrite IH.
Qed.

(** C8. A call that raises the runtime error of the name-set check,
    anywhere among the calls of a caller, yields that error and nothing
    else: the cells of the closure are as they were, the calls before
    and after return what they return without it, and the trace ends
    the same. *)
Theorem key_mismatch_scoped_to_call
    (before after : list (list (string * PyObj))) (bad : list (string * PyObj)) t :
  "proxy_object" ∉ map fst bad ->
  frozenset arg_names <> frozenset (map fst bad) ->
  exists rs1 rs2 t',
    session proxy_object (before ++ after) (self, t) = (rs1 ++ rs2, (self, t'))
    /\ length rs1 = length before
    /\ session proxy_object (before ++ bad :: after) (self, t)
       = (rs1 ++ Raise (key_mismatch arg_names (map fst bad)) :: rs2, (self, t')).
Proof.
  intros Hkey Hset.
  pose proof (session_cells before t) as Hcells.
  pose proof (session_length before (self, t)) as Hlen.
  destruct (session proxy_object before (self, t)) as [rs1 [cells t1]] eqn:Hbefore.
  simpl in Hcells, Hlen. subst cells.
  pose proof (session_cells after t1) as Hcells.
  destruct (session proxy_object after (self, t1)) as [rs2 [cells t']] eqn:Hafter.
  simpl in Hcells. subst cells.
  exists rs1, rs2, t'. split_and!; [|done|].
  - by rewrite session_app, Hbefore, Hafter.
  - rewrite session_app, Hbefore. simpl. rewrite invoke_dbus_func.
    rewrite dbus_func_mismatching by done. simpl. by rewrite Hafter.
Qed.

End Invocation.

(** ** Loops that fill a namespace *)

Section Loop.

Context {V E : Type}.
Variable body : E -> M (Frame V) unit.
Variable key : E -> option string.

(** When the body returns it has set one item, under the key of the
    element, and it does the same on any other frame. *)
Hypothesis body_returns : forall x ns t s',
  body x (ns, t) = (Ok tt, s') ->
  exists n v t1,
    key x = Some n /\ s' = (<[n := v]> ns, t ++ t1)
    /\ forall ns2 t2, body x (ns2, t2) = (Ok tt, (<[n := v]> ns2, t2 ++ t1)).

Lemma for_each_cons_inv x l s s' :
  for_each body (x :: l) s = (Ok tt, s') ->
  exists s1, body x s = (Ok tt, s1) /\ for_each body l s1 = (Ok tt, s').
Proof.
  simpl. unfold bind. destruct (body x s) as [[[]|e] s1]; [|done]. eauto.
Qed.

(** The keys of the namespace after the loop are those it had and the
    keys of the elements. *)
Lemma for_each_dom l ns t ns' t' :
  for_each body l (ns, t) = (Ok tt, (ns', t')) ->
  exists names,
    Forall2 (fun x n => key x = Some n) l names
    /\ dom ns' = list_to_set names ∪ dom ns.
Proof.
  revert ns t. induction l as [|x l IH]; intros ns t H.
  - injection H as <- <-. exists []. split; [constructor|set_solver].
  - apply for_each_cons_inv in H as ([ns1 t1] & Hx & Hl).
    apply body_returns in Hx as (n & v & t0 & Hn & [= -> ->] & _).
    apply IH in Hl as (names & Hnames & Hdom).
    exists (n :: names). split; [by constructor|].
    rewrite Hdom, dom_insert_L. set_solver.
Qed.

Lemma for_each_lookup_ne l n ns t ns' t' :
  for_each body l (ns, t) = (Ok tt, (ns', t')) ->
  Forall (fun y => key y <> Some n) l ->
  ns' !! n = ns !! n.
Proof.
  revert ns t. induction l as [|x l IH]; intros ns t H Hne.
  - by injection H as <- <-.
  - apply for_each_cons_inv in H as ([ns1 t1] & Hx & Hl).
    apply Forall_cons in Hne as [Hx_ne Hne].
    apply body_returns in Hx as (n' & v & t0 & Hn & [= -> ->] & _).
    rewrite (IH _ _ Hl Hne). apply lookup_insert_ne. congruence.
Qed.

(** The item under a key is the one set for the last element with
    that key. *)
Lemma for_each_last before x after n ns t ns' t' :
  for_each body (before ++ x :: after) (ns, t) = (Ok tt, (ns', t')) ->
  key x = Some n ->
  Forall (fun y => key y <> Some n) after ->
  exists v t1,
    ns' !! n = Some v /\ body x (∅, []) = (Ok tt, ({[n := v]}, t1)).
Proof.
  intros H Hn Hafter. rewrite for_each_app in H. unfold bind in H.
  destruct (for_each body before (ns, t)) as [[[]|e] [ns1 t1]]; [|done].
  apply for_each_cons_inv in H as ([ns2 t2] & Hx & Hl).
  apply body_returns in Hx as (n' & v & t0 & Hn' & [= -> ->] & Hany).
  assert (n' = n) as -> by congruence.
  exists v, t0. split.
  - rewrite (for_each_lookup_ne _ _ _ _ _ _ Hl Hafter). apply lookup_insert_eq.
  - rewrite (Hany ∅ []). by rewrite insert_empty.
Qed.

(** The loop returns when the body returns on each element alone. *)
Lemma for_each_returns l s :
  Forall (fun x => fst (body x (∅, [])) = Ok tt) l ->
  exists s', for_each body l s = (Ok tt, s').
Proof.
  revert s. induction l as [|x l IH]; intros s Hl; [by eexists|].
  apply Forall_cons in Hl as [Hx Hl]. simpl. unfold bind.
  destruct (body x (∅, [])) as [r s0] eqn:Hx0. simpl in Hx. subst r.
  destruct s0 as [ns0 t0].
  apply body_returns in Hx0 as (n & v & t1 & _ & _ & Hany).
  destruct s as [ns t]. rewrite Hany. by apply IH.
Qed.

End Loop.

(** ** The builders *)

Ltac unfold_py :=
  unfold bind, lift, ret, raise, setitem, modify, new_class, call_xformers,
    attrib_or_raise in *.

Ltac case_step :=
  match goal with
  | |- context [match ?x with _ => _ end] => destruct x eqn:?
  | H : context [match ?x with _ => _ end] |- _ => destruct x eqn:?
  end.

Section Builders.

Variable xformers : string -> Res Xformer.
Variable interface_name : string.

(** The loop body of [prop_builder] case by case, in the order in
    which it examines the attributes. *)
Lemma prop_builder_body_cases prop ns t :
  prop_builder_body xformers interface_name prop (ns, t)
  = match attrib prop !! "access" with
    | None =>
        (Raise (DPClientGenerationError "No access found for property."), (ns, t))
    | Some access =>
        match attrib prop !! "name" with
        | None =>
            (Raise (DPClientGenerationError "No name found for property."), (ns, t))
        | Some name =>
            if String.eqb access "read" then
              (Ok tt, (<[name := mkClass name
                                   (accessors interface_name access name (fun v => Ok v))]> ns, t))
            else
              match attrib prop !! "type" with
              | None =>
                  (Raise (DPClientGenerationError "No type found for property."),
                   (ns, t))
              | Some signature =>
                  match setter_xformer xformers signature with
                  | Raise e => (Raise e, (ns, t ++ [Lookup signature]))
                  | Ok xformer =>
                      (Ok tt, (<[name := mkClass name
                                           (accessors interface_name access name xformer)]> ns,
                               t ++ [Lookup signature]))
                  end
              end
        end
    end.
Proof.
  unfold prop_builder_body, build_property_getter, build_property_setter,
    accessors, setter_xformer.
  unfold_py.
  destruct (attrib prop !! "access") as [access|]; [|done].
  destruct (attrib prop !! "name") as [name|];
    destruct (String.eqb access "read"); try done;
    destruct (String.eqb access "write"); try done;
    destruct (attrib prop !! "type") as [signature|]; try done;
    destruct (xformers signature) as [xf|e]; try done;
    destruct (xf_item xf 0) as [xformer|e]; try done;
    simpl; by rewrite ?insert_empty.
Qed.

Lemma prop_builder_body_returns prop ns t s' :
  prop_builder_body xformers interface_name prop (ns, t) = (Ok tt, s') ->
  exists n v t1,
    attrib prop !! "name" = Some n /\ s' = (<[n := v]> ns, t ++ t1)
    /\ forall ns2 t2,
         prop_builder_body xformers interface_name prop (ns2, t2)
         = (Ok tt, (<[n := v]> ns2, t2 ++ t1)).
Proof.
  rewrite prop_builder_body_cases. intros H.
  destruct (attrib prop !! "access") as [access|] eqn:Ha; [|done].
  destruct (attrib prop !! "name") as [name|] eqn:Hn; [|done].
  destruct (String.eqb access "read") eqn:Hr.
  - injection H as <-.
    exists name, (mkClass name (accessors interface_name access name (fun v => Ok v))), [].
    split; [done|]. split; [by rewrite app_nil_r|].
    intros ns2 t2. rewrite prop_builder_body_cases, Ha, Hn, Hr.
    by rewrite app_nil_r.
  - destruct (attrib prop !! "type") as [signature|] eqn:Ht; [|done].
    destruct (setter_xformer xformers signature) as [xformer|e] eqn:Hx; [|done].
    injection H as <-.
    exists name, (mkClass name (accessors interface_name access name xformer)), [Lookup signature].
    split; [done|]. split; [done|].
    intros ns2 t2. by rewrite prop_builder_body_cases, Ha, Hn, Hr, Ht, Hx.
Qed.

(** What [build_method] returns does not depend on the frame, and the
    one event it leaves is the lookup of the signature. *)
Lemma build_method_returns {V} spec (ns : gmap string V) t invoker s' :
  build_method xformers interface_name spec (ns, t) = (Ok invoker, s') ->
  exists signature,
    s' = (ns, t ++ [Lookup signature])
    /\ xformers signature = Ok (mi_func invoker)
    /\ forall V2 (ns2 : gmap string V2) t2,
         build_method xformers interface_name spec (ns2, t2)
         = (Ok invoker, (ns2, t2 ++ [Lookup signature])).
Proof.
  unfold build_method. unfold_py. intros H.
  destruct (attrib spec !! "name") as [name|]; [|done].
  destruct (Py.comprehension (fun e => Py.getitem (attrib e) "name") _)
    as [arg_names|e]; [|done].
  destruct (Py.comprehension (fun e => Py.getitem (attrib e) "type") _)
    as [types|e]; [|done].
  destruct (xformers (Py.join "" types)) as [func|e] eqn:Hfunc; [|done].
  injection H as <- <-.
  by exists (Py.join "" types).
Qed.

Lemma method_builder_body_returns method ns t s' :
  method_builder_body xformers interface_name method (ns, t) = (Ok tt, s') ->
  exists n v t1,
    attrib method !! "name" = Some n /\ s' = (<[n := v]> ns, t ++ t1)
    /\ forall ns2 t2,
         method_builder_body xformers interface_name method (ns2, t2)
         = (Ok tt, (<[n := v]> ns2, t2 ++ t1)).
Proof.
  unfold method_builder_body. intros H.
  unfold bind at 1 in H. unfold lift, attrib_or_raise in H.
  destruct (attrib method !! "name") as [name|] eqn:Hn; [|done].
  unfold bind in H.
  destruct (build_method _ _ _ _) as [[invoker|e] s1] eqn:Hb; [|done].
  apply build_method_returns in Hb as (signature & -> & _ & Hany).
  unfold setitem, modify in H. injection H as <-.
  exists name, invoker, [Lookup signature]. split; [done|]. split; [done|].
  intros ns2 t2. unfold bind, lift, attrib_or_raise. rewrite Hn.
  by rewrite Hany.
Qed.

End Builders.

(** ** Claims about generation *)

Lemma first_failure_raises {S A} (body : A -> M S unit) l s x e :
  first_failure body l s x e -> fst (for_each body l s) = Raise e.
Proof.
  intros (before & after & s1 & s2 & -> & Hb & Hx).
  by rewrite (for_each_raise _ _ _ _ _ _ _ _ Hb Hx).
Qed.

Lemma filter_sublist {A} (f : A -> bool) (l : list A) :
  List.filter f l `sublist_of` l.
Proof.
  induction l as [|x l IH]; simpl; [constructor|].
  destruct (f x); by constructor.
Qed.

Lemma comprehension_getitem_raise (key : string) (l : list Element) :
  Exists (fun e => attrib e !! key = None) l ->
  Py.comprehension (fun e => Py.getitem (attrib e) key) l = Raise (KeyError key).
Proof.
  induction l as [|x l IH]; intros H; [by apply Exists_nil in H|].
  simpl. unfold Py.getitem at 1.
  destruct (attrib x !! key) as [v|] eqn:Hx; [|done].
  apply Exists_cons in H as [H|H]; [congruence|]. by rewrite IH.
Qed.

(** [findall] with an attribute keeps the children that have the tag
    and the value of the attribute, and no other. *)
Lemma findall_attr_filter (t a v : string) (spec : Element) :
  findall_attr t a v spec
  = filter (fun e => tag e = t /\ attrib e !! a = Some v) (children spec).
Proof.
  unfold findall_attr. induction (children spec) as [|c l IH]; [done|].
  simpl. rewrite filter_cons, IH.
  destruct (String.eqb_spec (tag c) t) as [Ht|Ht]; simpl.
  - destruct (attrib c !! a) as [v'|] eqn:Ha.
    + destruct (String.eqb_spec v' v) as [->|Hv].
      * by rewrite decide_True.
      * rewrite decide_False; [done|]. intros [_ [=]]. done.
    + rewrite decide_False; [done|]. by intros [_ [=]].
  - rewrite decide_False; [done|]. by intros [? _].
Qed.

Lemma comprehension_getitem_Forall2 (key : string) (l : list Element) vs :
  Py.comprehension (fun e => Py.getitem (attrib e) key) l = Ok vs ->
  Forall2 (fun e v => attrib e !! key = Some v) l vs.
Proof.
  intros H. apply PyFacts.comprehension_Forall2 in H.
  eapply Forall2_impl; [exact H|]. intros e v. unfold Py.getitem. simpl.
  destruct (attrib e !! key); congruence.
Qed.

Section Accessors.

Variable interface_name : string.

Lemma accessors_Get access name xformer :
  accessors interface_name access name xformer !! "Get"
  = if String.eqb access "write" then None
    else Some (Getter interface_name name).
Proof.
  unfold accessors.
  destruct (String.eqb_spec access "read") as [->|_]; [done|].
  destruct (String.eqb access "write"); [done|].
  by rewrite lookup_insert_ne.
Qed.

Lemma accessors_Set access name xformer :
  accessors interface_name access name xformer !! "Set"
  = if String.eqb access "read" then None
    else Some (Setter interface_name name xformer).
Proof.
  unfold accessors.
  destruct (String.eqb access "read"); [done|].
  destruct (String.eqb access "write"); [done|].
  by rewrite lookup_insert_eq.
Qed.

Lemma accessors_keys access name xformer k :
  is_Some (accessors interface_name access name xformer !! k) ->
  k = "Get" \/ k = "Set".
Proof.
  unfold accessors.
  destruct (String.eqb access "read"); [|destruct (String.eqb access "write")];
    intros [v Hv].
  - apply lookup_singleton_Some in Hv as [<- _]. by left.
  - apply lookup_singleton_Some in Hv as [<- _]. by right.
  - apply lookup_insert_Some in Hv as [[<- _]|[_ Hv]]; [by right|].
    apply lookup_singleton_Some in Hv as [<- _]. by left.
Qed.

End Accessors.

Section PropertyClaims.

Variable xformers : string -> Res Xformer.
Variable interface_name : string.

(** C3. Access gating: the class built for a property has a getter
    under Get unless its access is write, a setter under Set unless
    its access is read, nothing else, and one of the two at least. *)
Theorem prop_access_gating (prop : Element) ns t ns' t' :
  prop_builder_body xformers interface_name prop (ns, t) = (Ok tt, (ns', t')) ->
  exists access name cls,
    attrib prop !! "access" = Some access
    /\ attrib prop !! "name" = Some name
    /\ ns' = <[name := cls]> ns
    /\ class_name cls = name
    /\ (is_Some (class_namespace cls !! "Get") <-> access <> "write")
    /\ (is_Some (class_namespace cls !! "Set") <-> access <> "read")
    /\ (forall g, class_namespace cls !! "Get" = Some g ->
                  g = Getter interface_name name)
    /\ (forall s, class_namespace cls !! "Set" = Some s ->
                  exists xformer, s = Setter interface_name name xformer)
    /\ (forall k, is_Some (class_namespace cls !! k) -> k = "Get" \/ k = "Set")
    /\ (is_Some (class_namespace cls !! "Get")
        \/ is_Some (class_namespace cls !! "Set")).
Proof.
  rewrite prop_builder_body_cases. intros H.
  destruct (attrib prop !! "access") as [access|]; [|done].
  destruct (attrib prop !! "name") as [name|]; [|done].
  assert (exists xformer,
            ns' = <[name := mkClass name
                              (accessors interface_name access name xformer)]> ns)
    as [xformer ->].
  { destruct (String.eqb access "read"); [by eexists; injection H as <-|].
    destruct (attrib prop !! "type") as [signature|]; [|done].
    destruct (setter_xformer xformers signature) as [xformer|]; [|done].
    eexists. by injection H as <-. }
  clear H. eexists access, name, _. do 4 (split; [done|]). simpl.
  rewrite accessors_Get, accessors_Set.
  destruct (String.eqb_spec access "write") as [Hw|Hw];
    destruct (String.eqb_spec access "read") as [Hr|Hr]; simpl.
  - congruence.
  - split_and!; eauto using accessors_keys.
    + split; [by intros [? [=]]|done].
    + split; [congruence|eauto].
    + by intros ? [=].
    + intros s [= <-]. eauto.
  - split_and!; eauto using accessors_keys.
    + split; [congruence|eauto].
    + split; [by intros [? [=]]|done].
    + by intros g [= <-].
    + by intros ? [=].
  - split_and!; eauto using accessors_keys.
    + split; [congruence|eauto].
    + split; [congruence|eauto].
    + by intros g [= <-].
    + intros s [= <-]. eauto.
Qed.

(** C10. The access attribute is examined first: a property without it
    raises the generation error of the missing access whatever its
    other attributes are, and so does the loop, when the properties
    before it have been built. *)
Theorem prop_access_examined_first (prop : Element) ns t :
  attrib prop !! "access" = None ->
  prop_builder_body xformers interface_name prop (ns, t)
  = (Raise (DPClientGenerationError "No access found for property."), (ns, t))
  /\ forall spec before after s,
       findall "property" spec = before ++ prop :: after ->
       for_each (prop_builder_body xformers interface_name) before s
       = (Ok tt, (ns, t)) ->
       prop_builder_builder xformers interface_name spec s
       = (Raise (DPClientGenerationError "No access found for property."),
          (ns, t)).
Proof.
  intros Ha.
  assert (prop_builder_body xformers interface_name prop (ns, t)
          = (Raise (DPClientGenerationError "No access found for property."),
             (ns, t))) as Hbody.
  { by rewrite prop_builder_body_cases, Ha. }
  split; [done|]. intros spec before after s Hspec Hbefore.
  unfold prop_builder_builder. rewrite Hspec.
  by apply (for_each_raise _ _ _ _ _ _ _ _ Hbefore).
Qed.

(** C4, as the code has it. A property raises a generation error, and
    nothing has been looked up or set, when its access is absent, when
    its name is absent, or when its type is absent and its access is
    not read; a property of access read with a name is built whether
    it has a type or not. *)
Theorem prop_missing_attribute (prop : Element) ns t :
  (attrib prop !! "access" = None
   \/ attrib prop !! "name" = None
   \/ (attrib prop !! "type" = None /\ attrib prop !! "access" <> Some "read") ->
   exists msg,
     prop_builder_body xformers interface_name prop (ns, t)
     = (Raise (DPClientGenerationError msg), (ns, t)))
  /\ (attrib prop !! "access" = Some "read" ->
      is_Some (attrib prop !! "name") ->
      fst (prop_builder_body xformers interface_name prop (ns, t)) = Ok tt).
Proof.
  rewrite prop_builder_body_cases. split.
  - intros H.
    destruct (attrib prop !! "access") as [access|]; [|by eexists].
    destruct (attrib prop !! "name") as [name|]; [|by eexists].
    destruct H as [H|[H|[Ht Hr]]]; [done..|].
    destruct (String.eqb_spec access "read") as [->|_]; [done|].
    rewrite Ht. by eexists.
  - intros -> [name ->]. done.
Qed.

End PropertyClaims.

Section MethodClaims.

Variable xformers : string -> Res Xformer.
Variable interface_name : string.

(** A method with a name and an inbound argument without one: the
    lookup of the argument name raises, and nothing catches it. *)
Lemma build_method_unnamed_inbound_arg {V} (spec : Element)
    (ns : gmap string V) t :
  is_Some (attrib spec !! "name") ->
  Exists (fun e => attrib e !! "name" = None)
    (findall_attr "arg" "direction" "in" spec) ->
  build_method xformers interface_name spec (ns, t)
  = (Raise (KeyError "name"), (ns, t)).
Proof.
  intros [name Hname] Hargs. unfold build_method. unfold_py.
  rewrite Hname. by rewrite comprehension_getitem_raise.
Qed.

(** C6. What a method captures: the inbound arguments are exactly the
    children of tag arg and direction in, each as often as it occurs and
    in their order; their names are the
    argument names; their types, joined in that order, are the
    signature, which is looked up once in the registry; the invoker
    holds what the registry returned, and calling the invoker looks
    nothing up. *)
Theorem build_method_captures {V} (spec : Element) (ns : gmap string V) t
    invoker s' :
  build_method xformers interface_name spec (ns, t) = (Ok invoker, s') ->
  exists inargs types,
    inargs = filter (fun e => tag e = "arg"
                              /\ attrib e !! "direction" = Some "in")
               (children spec)
    /\ inargs `sublist_of` children spec
    /\ (forall e, e ∈ inargs <->
                  e ∈ children spec /\ tag e = "arg"
                  /\ attrib e !! "direction" = Some "in")
    /\ Forall2 (fun e n => attrib e !! "name" = Some n)
         inargs (mi_arg_names invoker)
    /\ Forall2 (fun e ty => attrib e !! "type" = Some ty) inargs types
    /\ (inargs = [] -> String.concat "" types = "")
    /\ xformers (String.concat "" types) = Ok (mi_func invoker)
    /\ s' = (ns, t ++ [Lookup (String.concat "" types)])
    /\ attrib spec !! "name" = Some (mi_name invoker)
    /\ mi_interface_name invoker = interface_name
    /\ forall proxy_object kwargs t0,
         List.filter is_lookup (snd (dbus_func invoker proxy_object kwargs t0))
         = List.filter is_lookup t0.
Proof.
  unfold build_method. unfold_py. intros H.
  destruct (attrib spec !! "name") as [name|]; [|done].
  destruct (Py.comprehension (fun e => Py.getitem (attrib e) "name") _)
    as [arg_names|e] eqn:Hnames; [|done].
  destruct (Py.comprehension (fun e => Py.getitem (attrib e) "type") _)
    as [types|e] eqn:Htypes; [|done].
  simpl in H.
  destruct (xformers (Py.join "" types)) as [func|e] eqn:Hfunc; [|done].
  injection H as <- <-.
  exists (findall_attr "arg" "direction" "in" spec), types.
  apply comprehension_getitem_Forall2 in Hnames, Htypes.
  split_and!; try done.
  - apply findall_attr_filter.
  - apply filter_sublist.
  - intros e. unfold findall_attr.
    rewrite !list_elem_of_In, filter_In, andb_true_iff.
    rewrite String.eqb_eq.
    destruct (attrib e !! "direction") as [d|]; [|naive_solver].
    rewrite String.eqb_eq. naive_solver.
  - intros Hnil. rewrite Hnil in Htypes. by apply Forall2_nil_inv_l in Htypes as ->.
  - intros proxy_object kwargs t0.
    match goal with
    | |- context [dbus_func ?i _ _ _] =>
        destruct (dbus_func_trace i proxy_object kwargs t0) as [->|[c ->]]
    end; [done|].
    rewrite List.filter_app. simpl. by rewrite app_nil_r.
Qed.

End MethodClaims.

(** ** The composer *)

Section Composer.

Variable xformers : string -> Res Xformer.

Lemma type_new_Ok {V} (name : string) (namespace : gmap string V) :
  (forall n, is_Some (namespace !! n) -> reserved n = false) ->
  type_new name namespace = Ok (mkClass name namespace).
Proof.
  intros H. unfold type_new.
  destruct (namespace !! "__slots__") eqn:H1;
    [by specialize (H "__slots__" (mk_is_Some _ _ H1))|].
  destruct (namespace !! "__qualname__") eqn:H2;
    [by specialize (H "__qualname__" (mk_is_Some _ _ H2))|].
  destruct (namespace !! "__classcell__") eqn:H3;
    [by specialize (H "__classcell__" (mk_is_Some _ _ H3))|].
  done.
Qed.

Lemma type_new_Raise {V} (name : string) (namespace : gmap string V) n :
  is_Some (namespace !! n) -> reserved n = true ->
  type_new name namespace = Raise TypeError.
Proof.
  intros [v Hv] Hn. unfold reserved in Hn. unfold type_new.
  apply orb_true_iff in Hn as [Hn|Hn]; [apply orb_true_iff in Hn as [Hn|Hn]|];
    apply String.eqb_eq in Hn; subst n; rewrite Hv; try done.
  - by destruct (namespace !! "__slots__").
  - by destruct (namespace !! "__slots__"), (namespace !! "__qualname__").
Qed.

Lemma type_new_inv {V} (name : string) (namespace : gmap string V) cls :
  type_new name namespace = Ok cls ->
  cls = mkClass name namespace
  /\ forall n, is_Some (namespace !! n) -> reserved n = false.
Proof.
  intros H. split.
  - unfold type_new in H.
    destruct (namespace !! "__slots__"), (namespace !! "__qualname__"),
      (namespace !! "__classcell__"); by simplify_eq.
  - intros n Hn. destruct (reserved n) eqn:Hr; [|done].
    by rewrite (type_new_Raise name namespace n Hn Hr) in H.
Qed.

(** The keys that a loop sets in an empty namespace are free of the
    names in [names] when the keys of the elements are. *)
Lemma declared_not_reserved {V E} (body : E -> M (Frame V) unit)
    (key : E -> option string) (l : list E) t ns' t' :
  (forall x ns t s', body x (ns, t) = (Ok tt, s') ->
     exists n v t1, key x = Some n /\ s' = (<[n := v]> ns, t ++ t1)
       /\ forall ns2 t2, body x (ns2, t2) = (Ok tt, (<[n := v]> ns2, t2 ++ t1))) ->
  for_each body l (∅, t) = (Ok tt, (ns', t')) ->
  (forall n, is_Some (ns' !! n) <-> exists x, x ∈ l /\ key x = Some n).
Proof.
  intros Hbody Hloop n.
  destruct (for_each_dom body key Hbody _ _ _ _ _ Hloop) as (names & Hnames & Hdom).
  rewrite <- elem_of_dom, Hdom, dom_empty_L, elem_of_union, elem_of_list_to_set.
  split.
  - intros [Hn|Hn]; [|set_solver].
    apply list_elem_of_lookup in Hn as [i Hi].
    destruct (Forall2_lookup_r _ _ _ _ _ Hnames Hi) as (x & Hx & Hkey).
    exists x. split; [by eapply list_elem_of_lookup_2|done].
  - intros (x & Hx & Hkey). left.
    apply list_elem_of_lookup in Hx as [i Hi].
    destruct (Forall2_lookup_l _ _ _ _ _ Hnames Hi) as (n' & Hn' & Hkey').
    assert (n' = n) as -> by congruence. by eapply list_elem_of_lookup_2.
Qed.

(** The builder of the interface class case by case. *)
Lemma invoker_builder_cases (spec : Element) ns t :
  dbus_python_invoker_builder xformers spec (ns, t)
  = match attrib spec !! "name" with
    | None =>
        (Raise (DPClientGenerationError "No name found for interface."), (ns, t))
    | Some interface_name =>
        match method_builder_builder xformers interface_name spec (∅, t) with
        | (Raise e, (_, t1)) => (Raise e, (ns, t1))
        | (Ok _, (methods, t1)) =>
            match type_new "Methods" methods with
            | Raise e => (Raise e, (ns, t1))
            | Ok methods_class =>
                let ns1 := <["Methods" := MethodsMember methods_class]> ns in
                match prop_builder_builder xformers interface_name spec (∅, t1) with
                | (Raise e, (_, t2)) => (Raise e, (ns1, t2))
                | (Ok _, (properties, t2)) =>
                    match type_new "Properties" properties with
                    | Raise e => (Raise e, (ns1, t2))
                    | Ok properties_class =>
                        (Ok tt,
                         (<["Properties" := PropertiesMember properties_class]> ns1,
                          t2))
                    end
                end
            end
        end
    end.
Proof.
  unfold dbus_python_invoker_builder, method_builder, prop_builder. unfold_py.
  destruct (attrib spec !! "name") as [interface_name|]; [|done].
  destruct (method_builder_builder _ _ _ _) as [[[]|e] [methods t1]]; [|done].
  destruct (type_new "Methods" methods) as [methods_class|e]; [|done].
  destruct (prop_builder_builder _ _ _ _) as [[[]|e] [properties t2]]; [|done].
  by destruct (type_new "Properties" properties) as [properties_class|e].
Qed.

(** C7, as the code has it. What the first failing method raises is
    what the builder of the interface class raises, with its namespace
    as it was. When the methods are built and none is named __slots__,
    __qualname__ or __classcell__, what the first failing property
    raises is what the builder raises, and its namespace then holds the
    class of the methods; when a method has such a name, the class of
    the methods cannot be created and the builder raises the type error
    of the interpreter, whatever the properties are. In each of these
    cases [types.new_class] on the builder returns no class and leaves
    the namespace of its caller as it was. When the builder returns, the
    namespace holds the two classes, and the keys of each are the names
    declared. *)
Theorem invoker_builder_all_or_nothing (spec : Element)
    (interface_name : string) ns t :
  attrib spec !! "name" = Some interface_name ->
  let methods_body := method_builder_body xformers interface_name in
  let properties_body := prop_builder_body xformers interface_name in
  let builder := dbus_python_invoker_builder xformers spec in
  let named_reserved := fun m : Element =>
    exists n, attrib m !! "name" = Some n /\ reserved n = true in
  (forall method e,
     first_failure methods_body (findall "method" spec) (∅, t) method e ->
     exists t',
       builder (ns, t) = (Raise e, (ns, t'))
       /\ forall cls nso,
            new_class (VO := Member) cls builder (nso, t) = (Raise e, (nso, t')))
  /\ (forall methods t1 prop e,
        for_each methods_body (findall "method" spec) (∅, t)
        = (Ok tt, (methods, t1)) ->
        Forall (fun m => ~ named_reserved m) (findall "method" spec) ->
        first_failure properties_body (findall "property" spec) (∅, t1) prop e ->
        exists t',
          builder (ns, t)
          = (Raise e,
             (<["Methods" := MethodsMember (mkClass "Methods" methods)]> ns, t'))
          /\ forall cls nso,
               new_class (VO := Member) cls builder (nso, t)
               = (Raise e, (nso, t')))
  /\ (forall methods t1,
        for_each methods_body (findall "method" spec) (∅, t)
        = (Ok tt, (methods, t1)) ->
        Exists named_reserved (findall "method" spec) ->
        builder (ns, t) = (Raise TypeError, (ns, t1))
        /\ forall cls nso,
             new_class (VO := Member) cls builder (nso, t)
             = (Raise TypeError, (nso, t1)))
  /\ (forall ns' t',
        builder (ns, t) = (Ok tt, (ns', t')) ->
        exists methods properties method_names property_names,
          ns' = <["Properties" := PropertiesMember (mkClass "Properties" properties)]>
                  (<["Methods" := MethodsMember (mkClass "Methods" methods)]> ns)
          /\ Forall2 (fun m n => attrib m !! "name" = Some n)
               (findall "method" spec) method_names
          /\ dom methods = list_to_set method_names
          /\ Forall2 (fun p n => attrib p !! "name" = Some n)
               (findall "property" spec) property_names
          /\ dom properties = list_to_set property_names).
Proof.
  intros Hname methods_body properties_body builder named_reserved.
  subst methods_body properties_body builder named_reserved.
  split_and!.
  - intros method e Hfail. apply first_failure_raises in Hfail.
    destruct (for_each (method_builder_body xformers interface_name)
                (findall "method" spec) (∅, t)) as [[[]|e'] [m t1]] eqn:Hloop;
      simpl in Hfail; simplify_eq.
    exists t1. split.
    + rewrite invoker_builder_cases, Hname. unfold method_builder_builder.
      by rewrite Hloop.
    + intros cls nso. unfold new_class.
      rewrite invoker_builder_cases, Hname. unfold method_builder_builder.
      by rewrite Hloop.
  - intros methods t1 prop e Hmethods Hfree Hfail.
    apply first_failure_raises in Hfail.
    assert (type_new "Methods" methods = Ok (mkClass "Methods" methods)) as Hcls.
    { apply type_new_Ok. intros n Hn. destruct (reserved n) eqn:Hr; [|done].
      apply (declared_not_reserved _ (fun m => attrib m !! "name") _ _ _ _
               (method_builder_body_returns xformers interface_name) Hmethods)
        in Hn as (m & Hm & Hmn).
      exfalso. apply (proj1 (Forall_forall _ _) Hfree m Hm). by exists n. }
    destruct (for_each (prop_builder_body xformers interface_name)
                (findall "property" spec) (∅, t1)) as [[[]|e'] [p t2]] eqn:Hloop;
      simpl in Hfail; simplify_eq.
    exists t2. split.
    + rewrite invoker_builder_cases, Hname.
      unfold method_builder_builder, prop_builder_builder.
      by rewrite Hmethods, Hcls, Hloop.
    + intros cls nso. unfold new_class.
      rewrite invoker_builder_cases, Hname.
      unfold method_builder_builder, prop_builder_builder.
      by rewrite Hmethods, Hcls, Hloop.
  - intros methods t1 Hmethods Hres.
    assert (type_new "Methods" methods = Raise TypeError) as Hcls.
    { apply Exists_exists in Hres as (m & Hm & n & Hmn & Hr).
      apply (type_new_Raise _ _ n); [|done].
      apply (declared_not_reserved _ (fun m => attrib m !! "name") _ _ _ _
               (method_builder_body_returns xformers interface_name) Hmethods).
      by exists m. }
    split.
    + rewrite invoker_builder_cases, Hname. unfold method_builder_builder.
      by rewrite Hmethods, Hcls.
    + intros cls nso. unfold new_class.
      rewrite invoker_builder_cases, Hname. unfold method_builder_builder.
      by rewrite Hmethods, Hcls.
  - intros ns' t'. rewrite invoker_builder_cases, Hname.
    destruct (method_builder_builder _ _ _ _) as [[[]|e'] [methods t1]] eqn:Hm;
      [|done].
    destruct (type_new "Methods" methods) as [mcls|e'] eqn:Hmc; [|done].
    destruct (prop_builder_builder _ _ _ _) as [[[]|e'] [properties t2]] eqn:Hp;
      [|done].
    destruct (type_new "Properties" properties) as [pcls|e'] eqn:Hpc; [|done].
    apply type_new_inv in Hmc as [-> _]. apply type_new_inv in Hpc as [-> _].
    intros [= <- <-].
    apply (for_each_dom _ (fun m => attrib m !! "name")) in Hm
      as (method_names & Hmn & Hmd);
      [|apply method_builder_body_returns].
    apply (for_each_dom _ (fun p => attrib p !! "name")) in Hp
      as (property_names & Hpn & Hpd);
      [|apply prop_builder_body_returns].
    exists methods, properties, method_names, property_names.
    split_and!; try done.
    + rewrite Hmd. set_solver.
    + rewrite Hpd. set_solver.
Qed.

End Composer.

(** ** Definitions of the same name *)

Section SameName.

Variable xformers : string -> Res Xformer.
Variable interface_name : string.

Lemma method_builder_body_alone method n invoker t1 :
  attrib method !! "name" = Some n ->
  method_builder_body xformers interface_name method (∅, [])
  = (Ok tt, ({[n := invoker]}, t1)) ->
  build_method xformers interface_name method
    (∅ : gmap string MethodInvoker, [])
  = (Ok invoker, (∅, t1)).
Proof.
  intros Hn. unfold method_builder_body.
  unfold bind at 1. unfold lift, attrib_or_raise. rewrite Hn.
  unfold bind.
  destruct (build_method _ _ _ _) as [[invoker'|e] s1] eqn:Hb; [|done].
  apply build_method_returns in Hb as (signature & -> & _ & _).
  unfold setitem, modify. intros H.
  pose proof (f_equal (fun r => fst (snd r) !! n) H) as Hns.
  pose proof (f_equal (fun r => snd (snd r)) H) as Ht.
  simpl in Hns, Ht. rewrite lookup_insert_eq, lookup_singleton_eq in Hns.
  injection Hns as ->. by rewrite <- Ht.
Qed.

(** C9. Definitions of the same name: the loops over the methods and
    over the properties return when each definition is built alone,
    whether names repeat or not, and the item under a name is the one
    built from the last definition of that name. *)
Theorem same_name_last_wins (spec : Element) :
  (Forall (fun m => fst (method_builder_body xformers interface_name m (∅, []))
                    = Ok tt) (findall "method" spec) ->
   forall ns t, exists ns' t',
     method_builder_builder xformers interface_name spec (ns, t)
     = (Ok tt, (ns', t'))
     /\ forall before method after n,
          findall "method" spec = before ++ method :: after ->
          attrib method !! "name" = Some n ->
          Forall (fun m => attrib m !! "name" <> Some n) after ->
          exists invoker t1,
            ns' !! n = Some invoker
            /\ build_method xformers interface_name method
                 (∅ : gmap string MethodInvoker, [])
               = (Ok invoker, (∅, t1)))
  /\ (Forall (fun p => fst (prop_builder_body xformers interface_name p (∅, []))
                       = Ok tt) (findall "property" spec) ->
      forall ns t, exists ns' t',
        prop_builder_builder xformers interface_name spec (ns, t)
        = (Ok tt, (ns', t'))
        /\ forall before prop after n,
             findall "property" spec = before ++ prop :: after ->
             attrib prop !! "name" = Some n ->
             Forall (fun p => attrib p !! "name" <> Some n) after ->
             exists cls t1,
               ns' !! n = Some cls
               /\ prop_builder_body xformers interface_name prop (∅, [])
                  = (Ok tt, ({[n := cls]}, t1))).
Proof.
  split.
  - intros Hall ns t.
    destruct (for_each_returns _ (fun m => attrib m !! "name")
                (method_builder_body_returns xformers interface_name)
                _ (ns, t) Hall) as [[ns' t'] Hloop].
    exists ns', t'. split; [done|].
    intros before method after n Hsplit Hn Hafter.
    unfold method_builder_builder in Hloop. rewrite Hsplit in Hloop.
    destruct (for_each_last _ (fun m => attrib m !! "name")
                (method_builder_body_returns xformers interface_name)
                _ _ _ _ _ _ _ _ Hloop Hn Hafter) as (invoker & t1 & Hlook & Hbody).
    exists invoker, t1. split; [done|]. by apply (method_builder_body_alone method n).
  - intros Hall ns t.
    destruct (for_each_returns _ (fun p => attrib p !! "name")
                (prop_builder_body_returns xformers interface_name)
                _ (ns, t) Hall) as [[ns' t'] Hloop].
    exists ns', t'. split; [done|].
    intros before prop after n Hsplit Hn Hafter.
    unfold prop_builder_builder in Hloop. rewrite Hsplit in Hloop.
    by apply (for_each_last _ (fun p => attrib p !! "name")
                (prop_builder_body_returns xformers interface_name)
                _ _ _ _ _ _ _ _ Hloop Hn Hafter).
Qed.

End SameName.

(** ** The claims on the examples *)

Section OnExamples.
Import Examples.

Lemma supplied_keys_NoDup : NoDup (map fst supplied).
Proof. apply (bool_decide_unpack _). by vm_compute. Defined.

Lemma supplied_declared_perm : supplied ≡ₚ declared.
Proof.
  change supplied with (firstn 2 supplied ++ skipn 2 supplied).
  change declared with (skipn 2 supplied ++ firstn 2 supplied).
  apply Permutation_app_comm.
Defined.

Lemma supplied_keys_declared :
  Py.frozenset (mi_arg_names create_pool_invoker)
  = Py.frozenset (map fst supplied).
Proof. by vm_compute. Defined.

Lemma misspelt_keys_differ :
  Py.frozenset (mi_arg_names create_pool_invoker)
  <> Py.frozenset (map fst misspelt).
Proof. apply (bool_decide_eq_false_1 _). by vm_compute. Defined.

Lemma misspelt_keys_bound : "proxy_object" ∉ map fst misspelt.
Proof. apply (bool_decide_eq_false_1 _). by vm_compute. Defined.

Lemma create_pool_names_bound :
  "proxy_object" ∉ mi_arg_names create_pool_invoker.
Proof. apply (bool_decide_eq_false_1 _). by vm_compute. Defined.

End OnExamples.

Lemma dbus_func_order_invariant_witness :
  NoDup (map fst Examples.supplied)
  /\ Examples.supplied ≡ₚ Examples.declared
  /\ Py.frozenset (mi_arg_names Examples.create_pool_invoker)
     = Py.frozenset (map fst Examples.supplied)
  /\ ("proxy_object" ∉ mi_arg_names Examples.create_pool_invoker)
  /\ dbus_func Examples.create_pool_invoker Examples.proxy Examples.declared []
     = dbus_func Examples.create_pool_invoker Examples.proxy Examples.supplied []
  /\ (exists items,
        items ≡ₚ Examples.supplied
        /\ dbus_func Examples.create_pool_invoker Examples.proxy
             Examples.supplied []
           = marshalled_call Examples.create_pool_invoker Examples.proxy
               (map snd items) [])
  /\ dbus_func Examples.create_pool_invoker Examples.proxy Examples.supplied []
     = (Ok PyNone,
        [Dispatch (mkCall "CreatePool"
                     [PyStr "pool1"; PyTuple [PyInt 0; PyInt 1]; PyBool false;
                      PyList [PyStr "/dev/a"]]
                     "org.storage.Manager")]).
Proof.
  split; [exact supplied_keys_NoDup|]. split; [exact supplied_declared_perm|].
  split; [exact supplied_keys_declared|].
  split; [exact create_pool_names_bound|].
  destruct (dbus_func_order_invariant Examples.create_pool_invoker Examples.proxy
              Examples.supplied Examples.declared []
              supplied_keys_NoDup supplied_declared_perm supplied_keys_declared)
    as (Hsame & _ & Hitems).
  split; [exact Hsame|]. split; [|by vm_compute].
  destruct (Hitems create_pool_names_bound) as (items & Hperm & _ & _ & Hcall).
  by exists items.
Defined.

(** C1, the claim as it is written: a method that declares an inbound
    argument named proxy_object is built, and the call with exactly the
    declared key raises the type error of the binding; nothing goes
    through the encoder and nothing is dispatched. *)
Lemma declared_name_proxy_object_is_unbound :
  build_method (V := MethodInvoker) Examples.registry "org.storage.Manager"
    Samples.attach (∅, [])
  = (Ok Samples.attach_invoker, (∅, [Lookup "o"]))
  /\ NoDup (map fst [("proxy_object", PyStr "/org/storage/1")])
  /\ Py.frozenset (mi_arg_names Samples.attach_invoker)
     = Py.frozenset (map fst [("proxy_object", PyStr "/org/storage/1")])
  /\ dbus_func Samples.attach_invoker Examples.proxy
       [("proxy_object", PyStr "/org/storage/1")] []
     = (Raise TypeError, [])
  /\ ~ (forall self proxy_object (kwargs : list (string * PyObj)) t,
          NoDup (map fst kwargs) ->
          Py.frozenset (mi_arg_names self) = Py.frozenset (map fst kwargs) ->
          exists args,
            dbus_func self proxy_object kwargs t
            = marshalled_call self proxy_object args t).
Proof.
  assert (NoDup (map fst [("proxy_object", PyStr "/org/storage/1")])) as Hnd.
  { apply (bool_decide_unpack _). by vm_compute. }
  assert (Py.frozenset (mi_arg_names Samples.attach_invoker)
          = Py.frozenset (map fst [("proxy_object", PyStr "/org/storage/1")]))
    as Hset by (by vm_compute).
  split; [by vm_compute|]. split; [exact Hnd|]. split; [exact Hset|].
  split; [by vm_compute|].
  intros H.
  destruct (H Samples.attach_invoker Examples.proxy
              [("proxy_object", PyStr "/org/storage/1")] [] Hnd Hset)
    as [args Hargs].
  vm_compute in Hargs. discriminate.
Qed.

Lemma dbus_func_key_mismatch_witness :
  (forall args e, xf_call (mi_func Examples.create_pool_invoker) args = Raise e ->
                  is_runtime_error e = false)
  /\ (forall t' c e, Examples.proxy t' c = Raise e -> is_runtime_error e = false)
  /\ ("proxy_object" ∉ map fst Examples.misspelt)
  /\ Py.frozenset (mi_arg_names Examples.create_pool_invoker)
     <> Py.frozenset (map fst Examples.misspelt)
  /\ dbus_func Examples.create_pool_invoker Examples.proxy Examples.misspelt []
     = (Raise (DPClientRuntimeError
                 "Key mismatch: name, redundancy, force, devices != name, redundancy, force, device"),
        [])
  /\ ("proxy_object" ∈ map fst Samples.with_proxy_keyword)
  /\ dbus_func Examples.create_pool_invoker Examples.proxy
       Samples.with_proxy_keyword []
     = (Raise TypeError, [])
  /\ forall e,
       fst (dbus_func Examples.create_pool_invoker Examples.proxy
              Examples.supplied []) = Raise e ->
       is_runtime_error e = false.
Proof.
  assert (forall args e, xf_call (mi_func Examples.create_pool_invoker) args = Raise e ->
                         is_runtime_error e = false) as Hxf by (intros; discriminate).
  assert (forall t' c e, Examples.proxy t' c = Raise e ->
                         is_runtime_error e = false) as Hproxy by (intros; discriminate).
  assert ("proxy_object" ∈ map fst Samples.with_proxy_keyword) as Hkey.
  { apply (bool_decide_unpack _). by vm_compute. }
  split; [exact Hxf|]. split; [exact Hproxy|].
  split; [exact misspelt_keys_bound|]. split; [exact misspelt_keys_differ|].
  split.
  { exact (proj1 (proj2 (dbus_func_key_mismatch Examples.create_pool_invoker
                           Examples.proxy Examples.misspelt [] Hxf Hproxy))
             misspelt_keys_bound misspelt_keys_differ). }
  split; [exact Hkey|]. split.
  { exact (proj1 (dbus_func_key_mismatch Examples.create_pool_invoker
                    Examples.proxy Samples.with_proxy_keyword [] Hxf Hproxy) Hkey). }
  exact (proj2 (proj2 (dbus_func_key_mismatch Examples.create_pool_invoker
                         Examples.proxy Examples.supplied [] Hxf Hproxy))
           supplied_keys_declared).
Defined.

(** C2, the claim as it is written: the keys differ from the declared
    names by one more key, named proxy_object, and the call raises the
    type error of the binding, not the runtime error. *)
Lemma keyword_proxy_object_is_no_key_mismatch :
  Py.frozenset (mi_arg_names Examples.create_pool_invoker)
  <> Py.frozenset (map fst Samples.with_proxy_keyword)
  /\ dbus_func Examples.create_pool_invoker Examples.proxy
       Samples.with_proxy_keyword []
     = (Raise TypeError, [])
  /\ ~ (exists msg,
          fst (dbus_func Examples.create_pool_invoker Examples.proxy
                 Samples.with_proxy_keyword [])
          = Raise (DPClientRuntimeError msg)).
Proof.
  split; [apply (bool_decide_eq_false_1 _); by vm_compute|].
  split; [by vm_compute|].
  intros [msg Hmsg]. vm_compute in Hmsg. discriminate.
Qed.

Lemma key_mismatch_scoped_to_call_witness :
  ("proxy_object" ∉ map fst Examples.misspelt)
  /\ Py.frozenset (mi_arg_names Examples.create_pool_invoker)
     <> Py.frozenset (map fst Examples.misspelt)
  /\ exists rs1 rs2 t',
       session Examples.proxy [Examples.supplied; Examples.declared]
         (Examples.create_pool_invoker, [])
       = (rs1 ++ rs2, (Examples.create_pool_invoker, t'))
       /\ length rs1 = 1
       /\ session Examples.proxy
            [Examples.supplied; Examples.misspelt; Examples.declared]
            (Examples.create_pool_invoker, [])
          = (rs1 ++ Raise (key_mismatch
                             (mi_arg_names Examples.create_pool_invoker)
                             (map fst Examples.misspelt)) :: rs2,
             (Examples.create_pool_invoker, t')).
Proof.
  split; [exact misspelt_keys_bound|]. split; [exact misspelt_keys_differ|].
  exact (key_mismatch_scoped_to_call Examples.create_pool_invoker Examples.proxy
           [Examples.supplied] [Examples.declared] Examples.misspelt []
           misspelt_keys_bound misspelt_keys_differ).
Defined.

Lemma version_is_built :
  prop_builder_body Examples.registry "org.storage.Manager" Examples.version (∅, [])
  = (Ok tt,
     (fst (snd (prop_builder_body Examples.registry "org.storage.Manager"
                  Examples.version (∅, []))),
      [])).
Proof. by vm_compute. Defined.

Lemma secret_is_built :
  prop_builder_body Examples.registry "org.storage.Manager" Samples.secret (∅, [])
  = (Ok tt,
     (fst (snd (prop_builder_body Examples.registry "org.storage.Manager"
                  Samples.secret (∅, []))),
      [Lookup "s"])).
Proof. by vm_compute. Defined.

Lemma label_is_built :
  prop_builder_body Examples.registry "org.storage.Manager" Samples.label (∅, [])
  = (Ok tt,
     (fst (snd (prop_builder_body Examples.registry "org.storage.Manager"
                  Samples.label (∅, []))),
      [Lookup "s"])).
Proof. by vm_compute. Defined.

Lemma prop_access_gating_witness :
  (exists cls,
     fst (snd (prop_builder_body Examples.registry "org.storage.Manager"
                 Examples.version (∅, []))) !! "Version" = Some cls
     /\ is_Some (class_namespace cls !! "Get")
     /\ ~ is_Some (class_namespace cls !! "Set"))
  /\ (exists cls,
        fst (snd (prop_builder_body Examples.registry "org.storage.Manager"
                    Samples.secret (∅, []))) !! "Secret" = Some cls
        /\ ~ is_Some (class_namespace cls !! "Get")
        /\ class_namespace cls !! "Set"
           = Some (Setter "org.storage.Manager" "Secret" (fun v => Ok v)))
  /\ (exists cls,
        fst (snd (prop_builder_body Examples.registry "org.storage.Manager"
                    Samples.label (∅, []))) !! "Label" = Some cls
        /\ class_namespace cls !! "Get"
           = Some (Getter "org.storage.Manager" "Label")
        /\ class_namespace cls !! "Set"
           = Some (Setter "org.storage.Manager" "Label" (fun v => Ok v))).
Proof.
  split_and!.
  - destruct (prop_access_gating Examples.registry "org.storage.Manager"
                Examples.version ∅ [] _ _ version_is_built)
      as (access & name & cls & Ha & Hn & Hns & _ & Hget & Hset & _).
    assert (access = "read") as -> by (vm_compute in Ha; congruence).
    assert (name = "Version") as -> by (vm_compute in Hn; congruence).
    exists cls. split; [rewrite Hns; apply lookup_insert_eq|].
    split; [by apply Hget|]. intros H. by apply Hset in H.
  - destruct (prop_access_gating Examples.registry "org.storage.Manager"
                Samples.secret ∅ [] _ _ secret_is_built)
      as (access & name & cls & Ha & Hn & Hns & _ & Hget & _).
    assert (access = "write") as -> by (vm_compute in Ha; congruence).
    assert (name = "Secret") as -> by (vm_compute in Hn; congruence).
    assert (fst (snd (prop_builder_body Examples.registry "org.storage.Manager"
                        Samples.secret (∅, []))) !! "Secret" = Some cls) as Hcls
      by (rewrite Hns; apply lookup_insert_eq).
    exists cls. split; [exact Hcls|].
    split; [intros H; by apply Hget in H|].
    vm_compute in Hcls. injection Hcls as <-. by vm_compute.
  - destruct (prop_access_gating Examples.registry "org.storage.Manager"
                Samples.label ∅ [] _ _ label_is_built)
      as (access & name & cls & Ha & Hn & Hns & _).
    assert (name = "Label") as -> by (vm_compute in Hn; congruence).
    assert (fst (snd (prop_builder_body Examples.registry "org.storage.Manager"
                        Samples.label (∅, []))) !! "Label" = Some cls) as Hcls
      by (rewrite Hns; apply lookup_insert_eq).
    exists cls. split; [exact Hcls|].
    vm_compute in Hcls. injection Hcls as <-. split; by vm_compute.
Defined.

Lemma prop_access_examined_first_witness :
  attrib Examples.bare_property !! "access" = None
  /\ attrib Examples.bare_property !! "name" = None
  /\ attrib Examples.bare_property !! "type" = None
  /\ prop_builder_body Examples.registry "org.storage.Manager"
       Examples.bare_property (∅, [])
     = (Raise (DPClientGenerationError "No access found for property."), (∅, [])).
Proof.
  split; [done|]. split; [done|]. split; [done|].
  exact (proj1 (prop_access_examined_first Examples.registry "org.storage.Manager"
                  Examples.bare_property ∅ [] eq_refl)).
Defined.

(** C4, the claim as it is written: a property of access read without a
    type is built, and so is the interface that holds it. *)
Lemma prop_read_without_type_is_built :
  attrib Examples.version_untyped !! "type" = None
  /\ fst (prop_builder_body Examples.registry "org.storage.Manager"
            Examples.version_untyped (∅, [])) = Ok tt
  /\ fst (dbus_python_invoker_builder Examples.registry
            (Examples.interface [Examples.version_untyped]) (∅, [])) = Ok tt
  /\ ~ (forall xformers interface_name prop ns t,
          attrib prop !! "type" = None ->
          exists msg,
            fst (prop_builder_body xformers interface_name prop (ns, t))
            = Raise (DPClientGenerationError msg)).
Proof.
  split; [by vm_compute|]. split; [by vm_compute|]. split; [by vm_compute|].
  intros H.
  destruct (H Examples.registry "org.storage.Manager" Examples.version_untyped
              ∅ [] eq_refl) as [msg Hmsg].
  vm_compute in Hmsg. discriminate.
Qed.

Lemma prop_missing_attribute_witness :
  (attrib Examples.label_untyped !! "access" = None
   \/ attrib Examples.label_untyped !! "name" = None
   \/ (attrib Examples.label_untyped !! "type" = None
       /\ attrib Examples.label_untyped !! "access" <> Some "read"))
  /\ exists msg,
       prop_builder_body Examples.registry "org.storage.Manager"
         Examples.label_untyped (∅, [])
       = (Raise (DPClientGenerationError msg), (∅, [])).
Proof.
  assert (attrib Examples.label_untyped !! "access" = None
          \/ attrib Examples.label_untyped !! "name" = None
          \/ (attrib Examples.label_untyped !! "type" = None
              /\ attrib Examples.label_untyped !! "access" <> Some "read")) as Hyp.
  { right. right. split; [done|]. vm_compute. discriminate. }
  split; [exact Hyp|].
  exact (proj1 (prop_missing_attribute Examples.registry "org.storage.Manager"
                  Examples.label_untyped ∅ []) Hyp).
Defined.

(** C5, on the code. A method whose inbound argument has no name: the
    key error of the lookup leaves [build_method] and the builder of the
    interface class as it is, and it is not a generation error. *)
Theorem build_method_unnamed_arg_key_error (xformers : string -> Res Xformer) :
  build_method (V := MethodInvoker) xformers "org.storage.Manager"
    Examples.unnamed_arg_method (∅, [])
  = (Raise (KeyError "name"), (∅, []))
  /\ fst (dbus_python_invoker_builder xformers
            (Examples.interface [Examples.unnamed_arg_method]) (∅, []))
     = Raise (KeyError "name")
  /\ is_generation_error (KeyError "name") = false.
Proof.
  split; [|split; [|done]].
  - apply build_method_unnamed_inbound_arg; [by eexists|].
    apply Exists_cons_hd. done.
  - rewrite invoker_builder_cases.
    change (attrib (Examples.interface [Examples.unnamed_arg_method]) !! "name")
      with (Some "org.storage.Manager").
    unfold method_builder_builder.
    change (findall "method" (Examples.interface [Examples.unnamed_arg_method]))
      with [Examples.unnamed_arg_method].
    simpl. unfold bind at 1. unfold method_builder_body at 1.
    unfold bind at 1. unfold lift, attrib_or_raise.
    change (attrib Examples.unnamed_arg_method !! "name") with (Some "Rename").
    unfold bind.
    rewrite build_method_unnamed_inbound_arg; [done|by eexists|].
    apply Exists_cons_hd. done.
Qed.

Lemma build_method_captures_witness :
  build_method (V := MethodInvoker) Examples.registry "org.storage.Manager"
    Examples.create_pool (∅, [])
  = (Ok Examples.create_pool_invoker, (∅, [Lookup "s(bq)bas"]))
  /\ exists inargs types,
       inargs = [Examples.arg "name" "s" "in"; Examples.arg "redundancy" "(bq)" "in";
                 Examples.arg "force" "b" "in"; Examples.arg "devices" "as" "in"]
       /\ Forall2 (fun e n => attrib e !! "name" = Some n) inargs
            ["name"; "redundancy"; "force"; "devices"]
       /\ Forall2 (fun e ty => attrib e !! "type" = Some ty) inargs types
       /\ Examples.registry (String.concat "" types) = Ok Examples.identity.
Proof.
  assert (build_method (V := MethodInvoker) Examples.registry "org.storage.Manager"
            Examples.create_pool (∅, [])
          = (Ok Examples.create_pool_invoker, (∅, [Lookup "s(bq)bas"]))) as Hrun
    by (by vm_compute).
  split; [exact Hrun|].
  destruct (build_method_captures Examples.registry "org.storage.Manager"
              Examples.create_pool ∅ [] _ _ Hrun)
    as (inargs & types & Hin & _ & _ & Hnames & Htypes & _ & Hfunc & _).
  exists inargs, types. split; [|done].
  rewrite Hin, <- findall_attr_filter. by vm_compute.
Defined.

Section ComposerOnExamples.
Import Examples Samples.

Lemma unnamed_method_fails_first :
  first_failure (method_builder_body registry "org.storage.Manager")
    (findall "method" (interface [unnamed_method; version])) (∅, [])
    unnamed_method (DPClientGenerationError "No name found for method.").
Proof. exists [], [], (∅, []), (∅, []). split_and!; by vm_compute. Defined.

Lemma create_pool_is_built :
  for_each (method_builder_body registry "org.storage.Manager")
    (findall "method" (interface [create_pool; bare_property])) (∅, [])
  = (Ok tt,
     (fst (snd (for_each (method_builder_body registry "org.storage.Manager")
                  (findall "method" (interface [create_pool; bare_property]))
                  (∅, []))),
      [Lookup "s(bq)bas"])).
Proof. by vm_compute. Defined.

Lemma create_pool_not_reserved :
  Forall (fun m => ~ exists n, attrib m !! "name" = Some n /\ reserved n = true)
    (findall "method" (interface [create_pool; bare_property])).
Proof.
  repeat constructor. intros (n & Hn & Hr).
  vm_compute in Hn. injection Hn as <-. by vm_compute in Hr.
Defined.

Lemma bare_property_fails_first :
  first_failure (prop_builder_body registry "org.storage.Manager")
    (findall "property" (interface [create_pool; bare_property]))
    (∅, [Lookup "s(bq)bas"]) bare_property
    (DPClientGenerationError "No access found for property.").
Proof.
  exists [], [], (∅, [Lookup "s(bq)bas"]), (∅, [Lookup "s(bq)bas"]).
  split_and!; by vm_compute.
Defined.

Lemma slots_is_built :
  for_each (method_builder_body registry "org.storage.Manager")
    (findall "method" (interface [slots; bare_property])) (∅, [])
  = (Ok tt,
     (fst (snd (for_each (method_builder_body registry "org.storage.Manager")
                  (findall "method" (interface [slots; bare_property]))
                  (∅, []))),
      [Lookup ""])).
Proof. by vm_compute. Defined.

Lemma slots_is_reserved :
  Exists (fun m => exists n, attrib m !! "name" = Some n /\ reserved n = true)
    (findall "method" (interface [slots; bare_property])).
Proof. apply Exists_cons_hd. by exists "__slots__". Defined.

End ComposerOnExamples.

Lemma invoker_builder_all_or_nothing_witness :
  (exists t',
     dbus_python_invoker_builder Examples.registry
       (Examples.interface [Samples.unnamed_method; Examples.version]) (∅, [])
     = (Raise (DPClientGenerationError "No name found for method."), (∅, t')))
  /\ (exists methods t',
        dbus_python_invoker_builder Examples.registry
          (Examples.interface [Examples.create_pool; Examples.bare_property])
          (∅, [])
        = (Raise (DPClientGenerationError "No access found for property."),
           (<["Methods" := MethodsMember (mkClass "Methods" methods)]> ∅, t'))
        /\ new_class (VO := Member) "Manager"
             (dbus_python_invoker_builder Examples.registry
                (Examples.interface [Examples.create_pool; Examples.bare_property]))
             (∅, [])
           = (Raise (DPClientGenerationError "No access found for property."),
              (∅, t')))
  /\ dbus_python_invoker_builder Examples.registry
       (Examples.interface [Samples.slots; Examples.bare_property]) (∅, [])
     = (Raise TypeError, (∅, [Lookup ""]))
  /\ exists methods properties,
       fst (snd (dbus_python_invoker_builder Examples.registry
                   (Examples.interface [Examples.create_pool; Examples.version])
                   (∅, [])))
       = <["Properties" := PropertiesMember (mkClass "Properties" properties)]>
           (<["Methods" := MethodsMember (mkClass "Methods" methods)]> ∅)
       /\ dom methods = {[ "CreatePool" ]}
       /\ dom properties = {[ "Version" ]}.
Proof.
  split_and!.
  - destruct (proj1 (invoker_builder_all_or_nothing Examples.registry
                (Examples.interface [Samples.unnamed_method; Examples.version])
                "org.storage.Manager" ∅ [] eq_refl)
                _ _ unnamed_method_fails_first) as (t' & Hrun & _).
    by exists t'.
  - destruct (proj1 (proj2 (invoker_builder_all_or_nothing Examples.registry
                (Examples.interface [Examples.create_pool; Examples.bare_property])
                "org.storage.Manager" ∅ [] eq_refl))
                _ _ _ _ create_pool_is_built create_pool_not_reserved
                bare_property_fails_first) as (t' & Hrun & Hcls).
    eexists _, t'. split; [exact Hrun|]. apply Hcls.
  - exact (proj1 (proj1 (proj2 (proj2 (invoker_builder_all_or_nothing
                Examples.registry
                (Examples.interface [Samples.slots; Examples.bare_property])
                "org.storage.Manager" ∅ [] eq_refl)))
                _ _ slots_is_built slots_is_reserved)).
  - destruct (dbus_python_invoker_builder Examples.registry
                (Examples.interface [Examples.create_pool; Examples.version])
                (∅, [])) as [r [ns' t']] eqn:Hrun.
    assert (r = Ok tt) as ->.
    { apply (f_equal fst) in Hrun. vm_compute in Hrun. congruence. }
    destruct (proj2 (proj2 (proj2 (invoker_builder_all_or_nothing Examples.registry
                 (Examples.interface [Examples.create_pool; Examples.version])
                 "org.storage.Manager" ∅ [] eq_refl))) ns' t' Hrun)
      as (methods & properties & mnames & pnames & -> & Hm & Hmd & Hp & Hpd).
    exists methods, properties. split; [done|].
    change (findall "method"
              (Examples.interface [Examples.create_pool; Examples.version]))
      with [Examples.create_pool] in Hm.
    change (findall "property"
              (Examples.interface [Examples.create_pool; Examples.version]))
      with [Examples.version] in Hp.
    apply Forall2_cons_inv_l in Hm as (mn & ? & Hmn & ->%Forall2_nil_inv_l & ->).
    apply Forall2_cons_inv_l in Hp as (pn & ? & Hpn & ->%Forall2_nil_inv_l & ->).
    vm_compute in Hmn, Hpn. simplify_eq.
    split; [rewrite Hmd|rewrite Hpd]; set_solver.
Defined.

(** C7, the claim as it is written: the method named __slots__ is built
    and the property fails to build, and what the builder of the
    interface class raises is not the generation error of the property
    but the type error of the class of the methods, which cannot be
    created. *)
Lemma reserved_method_name_hides_generation_error :
  fst (method_builder_builder Examples.registry "org.storage.Manager"
         (Examples.interface [Samples.slots; Examples.bare_property]) (∅, []))
  = Ok tt
  /\ fst (prop_builder_builder Examples.registry "org.storage.Manager"
            (Examples.interface [Samples.slots; Examples.bare_property])
            (∅, [Lookup ""]))
     = Raise (DPClientGenerationError "No access found for property.")
  /\ fst (dbus_python_invoker_builder Examples.registry
            (Examples.interface [Samples.slots; Examples.bare_property]) (∅, []))
     = Raise TypeError
  /\ is_generation_error TypeError = false.
Proof. split_and!; by vm_compute. Qed.

Lemma same_name_last_wins_witness :
  (exists ns' t',
     method_builder_builder Examples.registry "org.storage.Manager"
       (Examples.interface [Examples.create_pool; Examples.create_pool_again])
       (∅, [])
     = (Ok tt, (ns', t'))
     /\ option_map mi_arg_names (ns' !! "CreatePool") = Some ["name"])
  /\ (exists ns' t',
        prop_builder_builder Examples.registry "org.storage.Manager"
          (Examples.interface [Examples.version; Samples.version_again])
          (∅, [])
        = (Ok tt, (ns', t'))
        /\ option_map class_namespace (ns' !! "Version")
           = Some (<["Set" := Setter "org.storage.Manager" "Version"
                                (fun v => Ok v)]>
                     {[ "Get" := Getter "org.storage.Manager" "Version" ]})).
Proof.
  split.
  - assert (Forall (fun m => fst (method_builder_body Examples.registry
                                    "org.storage.Manager" m (∅, [])) = Ok tt)
              (findall "method"
                 (Examples.interface
                    [Examples.create_pool; Examples.create_pool_again]))) as Hall.
    { change (findall "method"
                (Examples.interface
                   [Examples.create_pool; Examples.create_pool_again]))
        with [Examples.create_pool; Examples.create_pool_again].
      repeat constructor; by vm_compute. }
    destruct (proj1 (same_name_last_wins Examples.registry "org.storage.Manager"
                       (Examples.interface
                          [Examples.create_pool; Examples.create_pool_again]))
                Hall ∅ []) as (ns' & t' & Hrun & Hlast).
    exists ns', t'. split; [exact Hrun|].
    destruct (Hlast [Examples.create_pool] Examples.create_pool_again []
                "CreatePool" eq_refl eq_refl (Forall_nil_2 _))
      as (invoker & t1 & -> & Hbuild).
    vm_compute in Hbuild. by injection Hbuild as <- <-.
  - assert (Forall (fun p => fst (prop_builder_body Examples.registry
                                    "org.storage.Manager" p (∅, [])) = Ok tt)
              (findall "property"
                 (Examples.interface
                    [Examples.version; Samples.version_again]))) as Hall.
    { change (findall "property"
                (Examples.interface [Examples.version; Samples.version_again]))
        with [Examples.version; Samples.version_again].
      repeat constructor; by vm_compute. }
    destruct (proj2 (same_name_last_wins Examples.registry "org.storage.Manager"
                       (Examples.interface
                          [Examples.version; Samples.version_again]))
                Hall ∅ []) as (ns' & t' & Hrun & Hlast).
    exists ns', t'. split; [exact Hrun|].
    destruct (Hlast [Examples.version] Samples.version_again []
                "Version" eq_refl eq_refl (Forall_nil_2 _))
      as (cls & t1 & Hlook & Hbody).
    apply (f_equal (option_map class_namespace)) in Hlook.
    etrans; [exact Hlook|]. simpl.
    apply (f_equal (fun r => option_map class_namespace (fst (snd r) !! "Version")))
      in Hbody.
    cbn [fst snd] in Hbody. rewrite lookup_singleton_eq in Hbody.
    cbn [option_map] in Hbody. rewrite <- Hbody. by vm_compute.
Defined.

(** * Further properties *)

(** ** One call of a method *)

Section Marshalling.
Import Py PyFacts.

Variable self : MethodInvoker.
Variable proxy_object : ProxyObject.

Local Abbreviation arg_names := (mi_arg_names self).

(** The items of [kwargs] once sorted, when the keys are the declared
    names and can be bound. *)
Lemma sorted_items (kwargs : list (string * PyObj)) :
  "proxy_object" ∉ map fst kwargs ->
  NoDup (map fst kwargs) ->
  frozenset arg_names = frozenset (map fst kwargs) ->
  exists items,
    items ≡ₚ kwargs
    /\ StronglySorted (fun x y => declared_before arg_names (fst x) (fst y)) items
    /\ forall t, dbus_func self proxy_object kwargs t
                 = marshalled_call self proxy_object (map snd items) t.
Proof.
  intros Hkey Hnd Hset.
  exists (map snd (sort_keyed (decorate arg_names kwargs))). split_and!.
  - rewrite sort_keyed_perm. unfold decorate. rewrite map_map. simpl.
    by rewrite map_id.
  - apply sorted_in_declared_order; [apply sort_keyed_sorted| |].
    + rewrite sort_keyed_perm. by apply decorate_NoDup.
    + rewrite sort_keyed_perm. unfold decorate.
      apply Forall_fmap, Forall_forall. intros x Hx. simpl.
      by apply (keys_declared self kwargs).
  - intros t. by apply dbus_func_matching.
Qed.

Lemma sorted_keys (items : list (string * PyObj)) :
  StronglySorted (fun x y => declared_before arg_names (fst x) (fst y)) items ->
  StronglySorted (declared_before arg_names) (map fst items).
Proof.
  induction 1 as [|x l _ IH Hx]; simpl; [constructor|].
  constructor; [done|]. by apply Forall_fmap.
Qed.

Lemma declared_before_asym x y :
  declared_before arg_names x y -> declared_before arg_names y x -> x = y.
Proof.
  intros (i & j & Hi & Hj & Hij) (j' & i' & Hj' & Hi' & Hji).
  rewrite Hi in Hi'. rewrite Hj in Hj'. simplify_eq. lia.
Qed.

(** A call has one of four outcomes: the type error of the binding, for
    a keyword named proxy_object; the key error; what the encoder
    raises; each of these with nothing dispatched; or one dispatch, of
    the member named as the method, qualified by the interface name,
    whose answer is returned as it is. *)
Theorem dbus_func_outcomes (kwargs : list (string * PyObj)) t :
  (("proxy_object" ∈ map fst kwargs)
   /\ dbus_func self proxy_object kwargs t = (Raise TypeError, t))
  \/ (("proxy_object" ∉ map fst kwargs)
      /\ frozenset arg_names <> frozenset (map fst kwargs)
      /\ dbus_func self proxy_object kwargs t
         = (Raise (key_mismatch arg_names (map fst kwargs)), t))
  \/ (("proxy_object" ∉ map fst kwargs)
      /\ frozenset arg_names = frozenset (map fst kwargs)
      /\ exists args,
           length args = length kwargs
           /\ (forall v, v ∈ args -> exists k, (k, v) ∈ kwargs)
           /\ match xf_call (mi_func self) args with
              | Raise e => dbus_func self proxy_object kwargs t = (Raise e, t)
              | Ok wire =>
                  let c := mkCall (mi_name self) wire (mi_interface_name self) in
                  dbus_func self proxy_object kwargs t
                  = (proxy_object t c, t ++ [Dispatch c])
              end).
Proof.
  destruct (decide ("proxy_object" ∈ map fst kwargs)) as [Hkey|Hkey];
    [left; split; [done|by apply dbus_func_unbound]|right].
  destruct (decide (frozenset arg_names = frozenset (map fst kwargs)))
    as [Hset|Hset];
    [right|left; split; [done|split; [done|by apply dbus_func_mismatching]]].
  split; [done|]. split; [done|].
  exists (map snd (map snd (sort_keyed (decorate arg_names kwargs)))).
  assert (map snd (sort_keyed (decorate arg_names kwargs)) ≡ₚ kwargs) as Hperm.
  { rewrite sort_keyed_perm. unfold decorate. rewrite map_map. simpl.
    by rewrite map_id. }
  split_and!.
  - by rewrite length_map, Hperm.
  - intros v Hv. apply list_elem_of_fmap in Hv as ([k v'] & -> & Hkv).
    exists k. by rewrite <- Hperm.
  - rewrite dbus_func_matching by done.
    unfold marshalled_call, bind, lift, dispatch.
    by destruct (xf_call _ _).
Qed.

(** With declared names that do not repeat, none of them proxy_object,
    the value at each position is the one supplied under the name
    declared at that position. *)
Theorem dbus_func_positional_values (kwargs : list (string * PyObj)) t :
  "proxy_object" ∉ arg_names ->
  NoDup arg_names ->
  NoDup (map fst kwargs) ->
  frozenset arg_names = frozenset (map fst kwargs) ->
  exists args,
    Forall2 (fun n v => (n, v) ∈ kwargs) arg_names args
    /\ dbus_func self proxy_object kwargs t
       = marshalled_call self proxy_object args t.
Proof.
  intros Hbound Hdecl Hnd Hset.
  assert ("proxy_object" ∉ map fst kwargs) as Hkey.
  { intros H. by apply Hbound, (keys_of_declared self kwargs). }
  destruct (sorted_items kwargs Hkey Hnd Hset) as (items & Hperm & Hsorted & Hcall).
  exists (map snd items). split; [|done].
  assert (map fst items = arg_names) as <-.
  { apply (StronglySorted_unique_strong (declared_before arg_names)).
    - intros x y _ _. apply declared_before_asym.
    - by apply sorted_keys.
    - by apply (declared_names_sorted []).
    - apply NoDup_Permutation; [by rewrite Hperm|done|].
      intros x. rewrite Hperm. by apply keys_of_declared. }
  apply Forall2_fmap, Forall2_same_length_lookup. split; [done|].
  intros i [k v] [k' v'] Hi Hi'. simplify_eq. simpl.
  rewrite <- Hperm. by eapply list_elem_of_lookup_2.
Qed.

(** A declared name that repeats is passed once: a call whose keys are
    the declared names and can be bound passes as many values as there
    are keys, never more than the declared arguments, and as many only
    when no declared name repeats. *)
Theorem dbus_func_repeated_name (kwargs : list (string * PyObj)) t :
  "proxy_object" ∉ map fst kwargs ->
  NoDup (map fst kwargs) ->
  frozenset arg_names = frozenset (map fst kwargs) ->
  exists args,
    dbus_func self proxy_object kwargs t
    = marshalled_call self proxy_object args t
    /\ length args = length kwargs
    /\ length args <= length arg_names
    /\ (length args = length arg_names <-> NoDup arg_names).
Proof.
  intros Hkey Hnd Hset.
  destruct (sorted_items kwargs Hkey Hnd Hset) as (items & Hperm & _ & Hcall).
  exists (map snd items). split; [done|].
  assert (length (map snd items) = length (map fst kwargs)) as Hlen.
  { by rewrite !length_map, Hperm. }
  assert (forall x, x ∈ map fst kwargs <-> x ∈ arg_names) as Hmem.
  { intros x. by apply keys_of_declared. }
  assert (map fst kwargs ⊆+ arg_names) as Hsub.
  { apply NoDup_submseteq; [done|]. intros x. apply Hmem. }
  split; [by rewrite Hlen, length_map|]. rewrite Hlen. split.
  - by apply submseteq_length.
  - split.
    + intros Heq. rewrite <- (submseteq_length_Permutation _ _ Hsub); [done|lia].
    + intros Hdecl. apply Permutation_length.
      by apply NoDup_Permutation.
Qed.

(** A method without inbound argument is called without keyword: the
    encoder gets the empty list; a keyword is the type error of the
    binding when one is named proxy_object, and a key error
    otherwise. *)
Theorem dbus_func_no_argument (kwargs : list (string * PyObj)) t :
  arg_names = [] ->
  dbus_func self proxy_object kwargs t
  = match kwargs with
    | [] => marshalled_call self proxy_object [] t
    | _ :: _ =>
        if bool_decide ("proxy_object" ∈ map fst kwargs)
        then (Raise TypeError, t)
        else (Raise (key_mismatch [] (map fst kwargs)), t)
    end.
Proof.
  intros Hnil. destruct kwargs as [|[k v] kwargs].
  - rewrite dbus_func_matching; [done|by apply not_elem_of_nil|].
    by rewrite Hnil.
  - case_bool_decide as Hkey.
    + by apply dbus_func_unbound.
    + rewrite dbus_func_mismatching; [by rewrite Hnil|done|].
      rewrite Hnil. unfold frozenset. simpl. set_solver.
Qed.

End Marshalling.

(** ** Building properties *)

Section PropertyBuilding.

Variable xformers : string -> Res Xformer.
Variable interface_name : string.

(** A property of access read is built without the registry: whatever
    the registry holds, nothing is looked up, and the getter of its
    class makes one call, Get on the properties interface with the
    interface name and the property name, whose answer it returns. *)
Theorem prop_read_only_needs_no_registry (prop : Element) (name : string) ns t :
  attrib prop !! "access" = Some "read" ->
  attrib prop !! "name" = Some name ->
  prop_builder_body xformers interface_name prop (ns, t)
  = (Ok tt,
     (<[name := mkClass name {[ "Get" := Getter interface_name name ]}]> ns, t))
  /\ forall proxy_object t0,
       getter_dbus_func interface_name name proxy_object t0
       = let c := mkCall "Get" [PyStr interface_name; PyStr name]
                    "org.freedesktop.DBus.Properties" in
         (proxy_object t0 c, t0 ++ [Dispatch c]).
Proof.
  intros Ha Hn. split; [|done].
  by rewrite prop_builder_body_cases, Ha, Hn.
Qed.

(** The setter of a property holds item 0 of what the registry returns
    for the type of the property, looked up once when the property is
    built. Called on a value, it encodes the value with it and makes one
    call, Set on the properties interface; when the encoder raises,
    nothing is called. *)
Theorem prop_setter_encodes (prop : Element) (access : string) ns t ns' t' :
  prop_builder_body xformers interface_name prop (ns, t) = (Ok tt, (ns', t')) ->
  attrib prop !! "access" = Some access ->
  access <> "read" ->
  exists name signature xf xformer cls,
    attrib prop !! "name" = Some name
    /\ attrib prop !! "type" = Some signature
    /\ xformers signature = Ok xf
    /\ xf_item xf 0 = Ok xformer
    /\ t' = t ++ [Lookup signature]
    /\ ns' !! name = Some cls
    /\ class_namespace cls !! "Set" = Some (Setter interface_name name xformer)
    /\ forall proxy_object value t0,
         setter_dbus_func interface_name name xformer proxy_object value t0
         = match xformer value with
           | Raise e => (Raise e, t0)
           | Ok wire =>
               let c := mkCall "Set" [PyStr interface_name; PyStr name; wire]
                          "org.freedesktop.DBus.Properties" in
               (proxy_object t0 c, t0 ++ [Dispatch c])
           end.
Proof.
  rewrite prop_builder_body_cases. intros H Ha Hr. rewrite Ha in H.
  destruct (attrib prop !! "name") as [name|]; [|done].
  destruct (String.eqb_spec access "read") as [|_]; [done|].
  destruct (attrib prop !! "type") as [signature|]; [|done].
  unfold setter_xformer in H.
  destruct (xformers signature) as [xf|e] eqn:Hxf; [|done].
  destruct (xf_item xf 0) as [xformer|e] eqn:Hitem; [|done].
  injection H as <- <-.
  exists name, signature, xf, xformer, (mkClass name
    (accessors interface_name access name xformer)).
  split_and!; try done.
  - by rewrite lookup_insert_eq.
  - simpl. rewrite accessors_Set.
    by destruct (String.eqb_spec access "read").
Qed.

(** What the registry raises for the type of a property that gets a
    setter, or on taking item 0 of what it returns, is raised as it is:
    the lookup is in the trace and the property is not set. *)
Theorem prop_registry_error_propagates (prop : Element)
    (access name signature : string) (e : exn) ns t :
  attrib prop !! "access" = Some access ->
  access <> "read" ->
  attrib prop !! "name" = Some name ->
  attrib prop !! "type" = Some signature ->
  setter_xformer xformers signature = Raise e ->
  prop_builder_body xformers interface_name prop (ns, t)
  = (Raise e, (ns, t ++ [Lookup signature])).
Proof.
  intros Ha Hr Hn Ht Hx. rewrite prop_builder_body_cases, Ha, Hn, Ht, Hx.
  by destruct (String.eqb_spec access "read").
Qed.

(** The registry is consulted once for each property that gets a
    setter, in the order of the properties, and for no other. *)
Theorem prop_builder_lookups (spec : Element) ns t ns' t' :
  prop_builder_builder xformers interface_name spec (ns, t) = (Ok tt, (ns', t')) ->
  exists signatures,
    Forall2 (fun p signature => attrib p !! "type" = Some signature)
      (List.filter has_setter (findall "property" spec)) signatures
    /\ t' = t ++ map Lookup signatures.
Proof.
  unfold prop_builder_builder. generalize (findall "property" spec). intros l.
  revert ns t. induction l as [|p l IH]; intros ns t H.
  - injection H as <- <-. exists []. split; [constructor|by rewrite app_nil_r].
  - simpl in H. unfold bind in H.
    destruct (prop_builder_body _ _ p (ns, t)) as [[[]|e] [ns1 t1]] eqn:Hp;
      [|done].
    apply IH in H as (signatures & Hsigs & ->).
    rewrite prop_builder_body_cases in Hp. simpl. unfold has_setter at 1.
    destruct (attrib p !! "access") as [access|]; [|done].
    destruct (attrib p !! "name") as [name|]; [|done].
    destruct (String.eqb access "read"); simpl.
    + injection Hp as <- <-. by exists signatures.
    + destruct (attrib p !! "type") as [signature|] eqn:Ht; [|done].
      destruct (setter_xformer xformers signature); [|done].
      injection Hp as <- <-. exists (signature :: signatures).
      split; [by constructor|]. by rewrite <- app_assoc.
Qed.

(** In the namespace that the loop fills, the class under a key has
    that key as its name, holds Get or Set, and nothing else. *)
Theorem prop_builder_classes (spec : Element) t ns' t' :
  prop_builder_builder xformers interface_name spec (∅, t) = (Ok tt, (ns', t')) ->
  forall n cls,
    ns' !! n = Some cls ->
    class_name cls = n
    /\ (exists p, p ∈ findall "property" spec /\ attrib p !! "name" = Some n)
    /\ (is_Some (class_namespace cls !! "Get")
        \/ is_Some (class_namespace cls !! "Set"))
    /\ forall k, is_Some (class_namespace cls !! k) -> k = "Get" \/ k = "Set".
Proof.
  unfold prop_builder_builder.
  set (P := fun (l : list Element) (n : string) (cls : PropertyClass) =>
    class_name cls = n
    /\ (exists p, p ∈ l /\ attrib p !! "name" = Some n)
    /\ (is_Some (class_namespace cls !! "Get")
        \/ is_Some (class_namespace cls !! "Set"))
    /\ forall k, is_Some (class_namespace cls !! k) -> k = "Get" \/ k = "Set").
  intros H.
  assert (forall l0 l ns t,
            (forall n cls, ns !! n = Some cls -> P (l0 ++ l) n cls) ->
            for_each (prop_builder_body xformers interface_name) l (ns, t)
            = (Ok tt, (ns', t')) ->
            forall n cls, ns' !! n = Some cls -> P (l0 ++ l) n cls) as Hind.
  { clear H. intros l0 l. revert l0.
    induction l as [|p l IH]; intros l0 ns t0 Hns Hl.
    - by injection Hl as <- <-.
    - simpl in Hl. unfold bind in Hl.
      destruct (prop_builder_body _ _ p (ns, t0)) as [[[]|e] [ns1 t1]] eqn:Hp;
        [|done].
      replace (l0 ++ p :: l) with ((l0 ++ [p]) ++ l) in * by (by rewrite <- app_assoc).
      apply (IH _ ns1 t1); [|done].
      intros n cls Hn.
      rewrite prop_builder_body_cases in Hp.
      destruct (attrib p !! "access") as [access|]; [|done].
      destruct (attrib p !! "name") as [name|] eqn:Hname; [|done].
      assert (exists xformer,
                ns1 = <[name := mkClass name
                                  (accessors interface_name access name xformer)]> ns)
        as [xformer ->].
      { destruct (String.eqb access "read"); [by eexists; injection Hp as <-|].
        destruct (attrib p !! "type") as [signature|]; [|done].
        destruct (setter_xformer xformers signature) as [xformer|]; [|done].
        eexists. by injection Hp as <-. }
      apply lookup_insert_Some in Hn as [[<- <-]|[_ Hn]].
      + split; [done|]. split.
        { exists p. split; [|done]. set_solver. }
        simpl. rewrite accessors_Get, accessors_Set. split.
        * destruct (String.eqb_spec access "write") as [->|_]; [right|left]; eauto.
        * apply accessors_keys.
      + by apply Hns. }
  apply (Hind [] _ ∅ t); [|done]. intros n cls Hn. by rewrite lookup_empty in Hn.
Qed.

End PropertyBuilding.

(** ** Building methods *)

Lemma filter_filter_implied {A} (f g : A -> bool) (l : list A) :
  (forall x, f x = true -> g x = true) ->
  List.filter f (List.filter g l) = List.filter f l.
Proof.
  intros Hfg. induction l as [|x l IH]; simpl; [done|].
  destruct (g x) eqn:Hg; simpl.
  - by rewrite IH.
  - destruct (f x) eqn:Hf; [|done]. apply Hfg in Hf. congruence.
Qed.

Lemma comprehension_getitem_Ok (key : string) (l : list Element) :
  Forall (fun e => is_Some (attrib e !! key)) l ->
  exists vs, Py.comprehension (fun e => Py.getitem (attrib e) key) l = Ok vs.
Proof.
  induction 1 as [|x l [v Hv] _ [vs IH]]; simpl; [by eexists|].
  unfold Py.getitem at 1. rewrite Hv, IH. by eexists.
Qed.

Section MethodBuilding.

Variable xformers : string -> Res Xformer.
Variable interface_name : string.

(** What [build_method] returns, read off the method. *)
Lemma build_method_invoker {V} (spec : Element) (ns : gmap string V) t
    invoker s' :
  build_method xformers interface_name spec (ns, t) = (Ok invoker, s') ->
  attrib spec !! "name" = Some (mi_name invoker)
  /\ mi_interface_name invoker = interface_name
  /\ Forall2 (fun e n => attrib e !! "name" = Some n)
       (findall_attr "arg" "direction" "in" spec) (mi_arg_names invoker)
  /\ exists signature,
       inbound_signature spec = Ok signature
       /\ xformers signature = Ok (mi_func invoker)
       /\ s' = (ns, t ++ [Lookup signature]).
Proof.
  unfold build_method, inbound_signature. unfold_py. intros H.
  destruct (attrib spec !! "name") as [name|]; [|done].
  destruct (Py.comprehension (fun e => Py.getitem (attrib e) "name") _)
    as [arg_names|e] eqn:Hnames; [|done].
  destruct (Py.comprehension (fun e => Py.getitem (attrib e) "type") _)
    as [types|e] eqn:Htypes; [|done].
  simpl in H.
  destruct (xformers (Py.join "" types)) as [func|e] eqn:Hfunc; [|done].
  injection H as <- <-. simpl.
  split_and!; try done.
  - by apply comprehension_getitem_Forall2.
  - by eexists.
Qed.

(** An inbound argument without a name or without a type: the key
    error of the lookup leaves [build_method] as it is, before the
    registry is consulted; the names are read first. *)
Theorem build_method_inbound_arg_key_error {V} (spec : Element)
    (ns : gmap string V) t :
  is_Some (attrib spec !! "name") ->
  (Exists (fun e => attrib e !! "name" = None)
     (findall_attr "arg" "direction" "in" spec) ->
   build_method xformers interface_name spec (ns, t)
   = (Raise (KeyError "name"), (ns, t)))
  /\ (Forall (fun e => is_Some (attrib e !! "name"))
        (findall_attr "arg" "direction" "in" spec) ->
      Exists (fun e => attrib e !! "type" = None)
        (findall_attr "arg" "direction" "in" spec) ->
      build_method xformers interface_name spec (ns, t)
      = (Raise (KeyError "type"), (ns, t))).
Proof.
  intros Hname. split; [by apply build_method_unnamed_inbound_arg|].
  destruct Hname as [name Hname]. intros Hnames Htypes.
  apply comprehension_getitem_Ok in Hnames as [arg_names Hnames].
  unfold build_method. unfold_py. rewrite Hname, Hnames.
  by rewrite comprehension_getitem_raise.
Qed.

(** Only the name of the method and its inbound arguments count: the
    children that are not arguments of direction in, whatever they hold
    or lack, change nothing. *)
Theorem build_method_ignores_other_children {V} (tag : string)
    (attrib : gmap string string) (children : list Element)
    (s : Frame V) :
  build_method xformers interface_name (mkElement tag attrib children) s
  = build_method xformers interface_name
      (mkElement tag attrib
         (findall_attr "arg" "direction" "in" (mkElement tag attrib children)))
      s.
Proof.
  unfold build_method, findall_attr. simpl.
  by rewrite filter_filter_implied.
Qed.

(** What the registry raises for the signature of a method is raised
    as it is: the lookup is in the trace and the method is not set. *)
Theorem method_registry_error_propagates (method : Element)
    (name signature : string) (e : exn) ns t :
  attrib method !! "name" = Some name ->
  Forall (fun a => is_Some (attrib a !! "name"))
    (findall_attr "arg" "direction" "in" method) ->
  inbound_signature method = Ok signature ->
  xformers signature = Raise e ->
  method_builder_body xformers interface_name method (ns, t)
  = (Raise e, (ns, t ++ [Lookup signature])).
Proof.
  intros Hname Hnames Hsig Hx.
  apply comprehension_getitem_Ok in Hnames as [arg_names Hnames].
  unfold inbound_signature in Hsig.
  unfold method_builder_body, build_method. unfold_py.
  rewrite Hname, Hnames.
  destruct (Py.comprehension (fun e => Py.getitem (attrib e) "type") _)
    as [types|]; [|done].
  injection Hsig as <-. simpl. by rewrite Hx.
Qed.

(** A method without a name raises the generation error of the missing
    name whatever its arguments are, and so does the loop, when the
    methods before it have been built. *)
Theorem method_without_name (method : Element) ns t :
  attrib method !! "name" = None ->
  method_builder_body xformers interface_name method (ns, t)
  = (Raise (DPClientGenerationError "No name found for method."), (ns, t))
  /\ forall spec before after s,
       findall "method" spec = before ++ method :: after ->
       for_each (method_builder_body xformers interface_name) before s
       = (Ok tt, (ns, t)) ->
       method_builder_builder xformers interface_name spec s
       = (Raise (DPClientGenerationError "No name found for method."), (ns, t)).
Proof.
  intros Hname.
  assert (method_builder_body xformers interface_name method (ns, t)
          = (Raise (DPClientGenerationError "No name found for method."),
             (ns, t))) as Hbody.
  { unfold method_builder_body. unfold_py. by rewrite Hname. }
  split; [done|]. intros spec before after s Hspec Hbefore.
  unfold method_builder_builder. rewrite Hspec.
  by apply (for_each_raise _ _ _ _ _ _ _ _ Hbefore).
Qed.

(** The registry is consulted once for each method, in the order of the
    methods, for the signature of its inbound arguments. *)
Theorem method_builder_lookups (spec : Element) ns t ns' t' :
  method_builder_builder xformers interface_name spec (ns, t)
  = (Ok tt, (ns', t')) ->
  exists signatures,
    Forall2 (fun m signature => inbound_signature m = Ok signature)
      (findall "method" spec) signatures
    /\ t' = t ++ map Lookup signatures.
Proof.
  unfold method_builder_builder. generalize (findall "method" spec). intros l.
  revert ns t. induction l as [|m l IH]; intros ns t H.
  - injection H as <- <-. exists []. split; [constructor|by rewrite app_nil_r].
  - simpl in H. unfold bind in H.
    destruct (method_builder_body _ _ m (ns, t)) as [[[]|e] [ns1 t1]] eqn:Hm;
      [|done].
    apply IH in H as (signatures & Hsigs & ->).
    unfold method_builder_body in Hm. unfold bind at 1 in Hm.
    unfold lift, attrib_or_raise in Hm.
    destruct (attrib m !! "name") as [name|]; [|done].
    unfold bind in Hm.
    destruct (build_method _ _ _ _) as [[invoker|e] s1] eqn:Hb; [|done].
    apply build_method_invoker in Hb as (_ & _ & _ & signature & Hsig & _ & ->).
    unfold setitem, modify in Hm. injection Hm as <- <-.
    exists (signature :: signatures). split; [by constructor|].
    by rewrite <- app_assoc.
Qed.

(** In the namespace that the loop fills, the invoker under a key calls
    the member of that name on the interface of the specification, and
    holds the names of the inbound arguments of a method of that name
    and what the registry returned for its signature. *)
Theorem method_builder_invokers (spec : Element) t ns' t' :
  method_builder_builder xformers interface_name spec (∅, t)
  = (Ok tt, (ns', t')) ->
  forall n invoker,
    ns' !! n = Some invoker ->
    mi_name invoker = n
    /\ mi_interface_name invoker = interface_name
    /\ exists m signature,
         m ∈ findall "method" spec
         /\ attrib m !! "name" = Some n
         /\ Forall2 (fun e a => attrib e !! "name" = Some a)
              (findall_attr "arg" "direction" "in" m) (mi_arg_names invoker)
         /\ inbound_signature m = Ok signature
         /\ xformers signature = Ok (mi_func invoker).
Proof.
  unfold method_builder_builder.
  set (P := fun (l : list Element) (n : string) (invoker : MethodInvoker) =>
    mi_name invoker = n
    /\ mi_interface_name invoker = interface_name
    /\ exists m signature,
         m ∈ l
         /\ attrib m !! "name" = Some n
         /\ Forall2 (fun e a => attrib e !! "name" = Some a)
              (findall_attr "arg" "direction" "in" m) (mi_arg_names invoker)
         /\ inbound_signature m = Ok signature
         /\ xformers signature = Ok (mi_func invoker)).
  intros H.
  assert (forall l0 l ns t0,
            (forall n invoker, ns !! n = Some invoker -> P (l0 ++ l) n invoker) ->
            for_each (method_builder_body xformers interface_name) l (ns, t0)
            = (Ok tt, (ns', t')) ->
            forall n invoker, ns' !! n = Some invoker -> P (l0 ++ l) n invoker)
    as Hind.
  { clear H. intros l0 l. revert l0.
    induction l as [|m l IH]; intros l0 ns t0 Hns Hl.
    - by injection Hl as <- <-.
    - simpl in Hl. unfold bind in Hl.
      destruct (method_builder_body _ _ m (ns, t0)) as [[[]|e] [ns1 t1]] eqn:Hm;
        [|done].
      replace (l0 ++ m :: l) with ((l0 ++ [m]) ++ l) in *
        by (by rewrite <- app_assoc).
      apply (IH _ ns1 t1); [|done].
      intros n invoker Hn.
      unfold method_builder_body in Hm. unfold bind at 1 in Hm.
      unfold lift, attrib_or_raise in Hm.
      destruct (attrib m !! "name") as [name|] eqn:Hname; [|done].
      unfold bind in Hm.
      destruct (build_method _ _ _ _) as [[built|e] s1] eqn:Hb; [|done].
      apply build_method_invoker in Hb
        as (Hbn & Hbi & Hargs & signature & Hsig & Hfunc & ->).
      unfold setitem, modify in Hm. injection Hm as <- <-.
      apply lookup_insert_Some in Hn as [[<- <-]|[_ Hn]].
      + split; [congruence|]. split; [done|].
        exists m, signature. split_and!; try done. set_solver.
      + by apply Hns. }
  apply (Hind [] _ ∅ t); [|done].
  intros n invoker Hn. by rewrite lookup_empty in Hn.
Qed.

End MethodBuilding.

(** ** Building the interface class *)

Section InterfaceBuilding.

Variable xformers : string -> Res Xformer.

(** An interface element without a name: both builders and the builder
    of the interface class raise the generation error of the missing
    name, before any method or property is examined. *)
Theorem interface_without_name (spec : Element) ns t :
  attrib spec !! "name" = None ->
  method_builder xformers spec
  = Raise (DPClientGenerationError "No name found for interface.")
  /\ prop_builder xformers spec
     = Raise (DPClientGenerationError "No name found for interface.")
  /\ dbus_python_invoker_builder xformers spec (ns, t)
     = (Raise (DPClientGenerationError "No name found for interface."), (ns, t)).
Proof.
  intros Hname. unfold method_builder, prop_builder, attrib_or_raise.
  rewrite invoker_builder_cases, Hname. done.
Qed.

(** Only the name of the interface and its children of tag method and
    property count: the other children change nothing. *)
Theorem invoker_builder_ignores_other_children (tag : string)
    (attrib : gmap string string) (children : list Element)
    (s : Frame Member) :
  dbus_python_invoker_builder xformers (mkElement tag attrib children) s
  = dbus_python_invoker_builder xformers
      (mkElement tag attrib
         (List.filter
            (fun c => String.eqb (ET.tag c) "method"
                      || String.eqb (ET.tag c) "property") children))
      s.
Proof.
  destruct s as [ns t]. rewrite !invoker_builder_cases. simpl.
  destruct (attrib !! "name") as [interface_name|]; [|done].
  unfold method_builder_builder, prop_builder_builder, findall. simpl.
  rewrite !filter_filter_implied; [done|..].
  - intros c ->. apply orb_true_r.
  - intros c ->. done.
Qed.

(** An interface without method and without property: the namespace
    gets two classes with nothing in them, and nothing is looked up. *)
Theorem invoker_builder_empty_interface (spec : Element)
    (interface_name : string) ns t :
  attrib spec !! "name" = Some interface_name ->
  findall "method" spec = [] ->
  findall "property" spec = [] ->
  dbus_python_invoker_builder xformers spec (ns, t)
  = (Ok tt,
     (<["Properties" := PropertiesMember (mkClass "Properties" ∅)]>
        (<["Methods" := MethodsMember (mkClass "Methods" ∅)]> ns),
      t)).
Proof.
  intros Hname Hm Hp. rewrite invoker_builder_cases, Hname.
  unfold method_builder_builder, prop_builder_builder. by rewrite Hm, Hp.
Qed.

End InterfaceBuilding.

(** ** The further properties on the examples *)

Lemma dbus_func_positional_values_witness :
  ("proxy_object" ∉ mi_arg_names Examples.create_pool_invoker)
  /\ NoDup (mi_arg_names Examples.create_pool_invoker)
  /\ exists args,
       Forall2 (fun n v => (n, v) ∈ Examples.supplied)
         (mi_arg_names Examples.create_pool_invoker) args
       /\ dbus_func Examples.create_pool_invoker Examples.proxy Examples.supplied []
          = marshalled_call Examples.create_pool_invoker Examples.proxy args [].
Proof.
  assert (NoDup (mi_arg_names Examples.create_pool_invoker)) as Hdecl.
  { apply (bool_decide_unpack _). by vm_compute. }
  split; [exact create_pool_names_bound|]. split; [exact Hdecl|].
  exact (dbus_func_positional_values Examples.create_pool_invoker Examples.proxy
           Examples.supplied [] create_pool_names_bound Hdecl
           supplied_keys_NoDup supplied_keys_declared).
Defined.

Lemma dbus_func_repeated_name_witness :
  ("proxy_object" ∉ map fst [("x", PyStr "a")])
  /\ NoDup (map fst [("x", PyStr "a")])
  /\ Py.frozenset (mi_arg_names Samples.twice_invoker)
     = Py.frozenset (map fst [("x", PyStr "a")])
  /\ exists args,
       dbus_func Samples.twice_invoker Examples.proxy [("x", PyStr "a")] []
       = marshalled_call Samples.twice_invoker Examples.proxy args []
       /\ length args = 1
       /\ length args <= 2
       /\ (length args = 2 <-> NoDup ["x"; "x"]).
Proof.
  assert ("proxy_object" ∉ map fst [("x", PyStr "a")]) as Hkey.
  { apply (bool_decide_eq_false_1 _). by vm_compute. }
  assert (NoDup (map fst [("x", PyStr "a")])) as Hnd.
  { apply (bool_decide_unpack _). by vm_compute. }
  assert (Py.frozenset (mi_arg_names Samples.twice_invoker)
          = Py.frozenset (map fst [("x", PyStr "a")])) as Hset by (by vm_compute).
  split; [exact Hkey|]. split; [exact Hnd|]. split; [exact Hset|].
  exact (dbus_func_repeated_name Samples.twice_invoker Examples.proxy
           [("x", PyStr "a")] [] Hkey Hnd Hset).
Defined.

Lemma dbus_func_no_argument_witness :
  mi_arg_names Samples.get_version_invoker = []
  /\ dbus_func Samples.get_version_invoker Examples.proxy [] []
     = marshalled_call Samples.get_version_invoker Examples.proxy [] []
  /\ dbus_func Samples.get_version_invoker Examples.proxy [("x", PyNone)] []
     = (Raise (key_mismatch [] ["x"]), [])
  /\ dbus_func Samples.get_version_invoker Examples.proxy
       [("proxy_object", PyNone)] []
     = (Raise TypeError, []).
Proof.
  split; [done|]. split_and!.
  - exact (dbus_func_no_argument Samples.get_version_invoker Examples.proxy
             [] [] eq_refl).
  - exact (dbus_func_no_argument Samples.get_version_invoker Examples.proxy
             [("x", PyNone)] [] eq_refl).
  - exact (dbus_func_no_argument Samples.get_version_invoker Examples.proxy
             [("proxy_object", PyNone)] [] eq_refl).
Defined.

Lemma prop_read_only_needs_no_registry_witness :
  attrib Examples.version !! "access" = Some "read"
  /\ attrib Examples.version !! "name" = Some "Version"
  /\ prop_builder_body Samples.empty_registry "org.storage.Manager"
       Examples.version (∅, [])
     = (Ok tt,
        (<["Version" := mkClass "Version"
                          {[ "Get" := Getter "org.storage.Manager" "Version" ]}]> ∅,
         [])).
Proof.
  split; [done|]. split; [done|].
  exact (proj1 (prop_read_only_needs_no_registry Samples.empty_registry
                  "org.storage.Manager" Examples.version "Version" ∅ []
                  eq_refl eq_refl)).
Defined.

Lemma prop_setter_encodes_witness :
  attrib Samples.label !! "access" = Some "readwrite"
  /\ "readwrite" <> "read"
  /\ exists name signature xf xformer,
       attrib Samples.label !! "name" = Some name
       /\ attrib Samples.label !! "type" = Some signature
       /\ Examples.registry signature = Ok xf
       /\ xf_item xf 0 = Ok xformer.
Proof.
  assert ("readwrite" <> "read") as Hr by discriminate.
  split; [done|]. split; [exact Hr|].
  destruct (prop_setter_encodes Examples.registry "org.storage.Manager"
              Samples.label "readwrite" ∅ [] _ _ label_is_built eq_refl Hr)
    as (name & signature & xf & xformer & cls & Hn & Ht & Hxf & Hitem & _).
  by exists name, signature, xf, xformer.
Defined.

Lemma prop_registry_error_propagates_witness :
  attrib Samples.label !! "access" = Some "readwrite"
  /\ "readwrite" <> "read"
  /\ attrib Samples.label !! "name" = Some "Label"
  /\ attrib Samples.label !! "type" = Some "s"
  /\ setter_xformer Samples.empty_registry "s" = Raise (OtherError "IntoDPError")
  /\ prop_builder_body Samples.empty_registry "org.storage.Manager"
       Samples.label (∅, [])
     = (Raise (OtherError "IntoDPError"), (∅, [Lookup "s"])).
Proof.
  assert ("readwrite" <> "read") as Hr by discriminate.
  split; [done|]. split; [exact Hr|]. do 3 (split; [done|]).
  exact (prop_registry_error_propagates Samples.empty_registry
           "org.storage.Manager" Samples.label "readwrite" "Label" "s"
           (OtherError "IntoDPError") ∅ [] eq_refl Hr eq_refl eq_refl eq_refl).
Defined.

Lemma properties_are_built :
  prop_builder_builder Examples.registry "org.storage.Manager"
    (Examples.interface [Examples.version; Samples.label]) (∅, [])
  = (Ok tt,
     (fst (snd (prop_builder_builder Examples.registry "org.storage.Manager"
                  (Examples.interface [Examples.version; Samples.label])
                  (∅, []))),
      [Lookup "s"])).
Proof. by vm_compute. Defined.

Lemma prop_builder_lookups_witness :
  exists signatures,
    Forall2 (fun p signature => attrib p !! "type" = Some signature)
      [Samples.label] signatures
    /\ [Lookup "s"] = [] ++ map Lookup signatures.
Proof.
  exact (prop_builder_lookups Examples.registry "org.storage.Manager"
           (Examples.interface [Examples.version; Samples.label])
           ∅ [] _ _ properties_are_built).
Defined.

Lemma prop_builder_classes_witness :
  exists cls,
    fst (snd (prop_builder_builder Examples.registry "org.storage.Manager"
                (Examples.interface [Examples.version; Samples.label])
                (∅, []))) !! "Label" = Some cls
    /\ class_name cls = "Label".
Proof.
  destruct (fst (snd (prop_builder_builder Examples.registry "org.storage.Manager"
                        (Examples.interface [Examples.version; Samples.label])
                        (∅, []))) !! "Label") as [cls|] eqn:Hn;
    [|vm_compute in Hn; discriminate].
  exists cls. split; [done|].
  exact (proj1 (prop_builder_classes Examples.registry "org.storage.Manager"
                  (Examples.interface [Examples.version; Samples.label])
                  [] _ _ properties_are_built "Label" cls Hn)).
Defined.

Lemma build_method_inbound_arg_key_error_witness :
  is_Some (attrib Samples.untyped_arg_method !! "name")
  /\ Forall (fun e => is_Some (attrib e !! "name"))
       (findall_attr "arg" "direction" "in" Samples.untyped_arg_method)
  /\ Exists (fun e => attrib e !! "type" = None)
       (findall_attr "arg" "direction" "in" Samples.untyped_arg_method)
  /\ build_method (V := MethodInvoker) Examples.registry "org.storage.Manager"
       Samples.untyped_arg_method (∅, [])
     = (Raise (KeyError "type"), (∅, [])).
Proof.
  assert (is_Some (attrib Samples.untyped_arg_method !! "name")) as Hname
    by (by eexists).
  assert (Forall (fun e => is_Some (attrib e !! "name"))
            (findall_attr "arg" "direction" "in" Samples.untyped_arg_method))
    as Hnames by (repeat constructor; by eexists).
  assert (Exists (fun e => attrib e !! "type" = None)
            (findall_attr "arg" "direction" "in" Samples.untyped_arg_method))
    as Htypes by (by apply Exists_cons_hd).
  split; [exact Hname|]. split; [exact Hnames|]. split; [exact Htypes|].
  exact (proj2 (build_method_inbound_arg_key_error Examples.registry
                  "org.storage.Manager" Samples.untyped_arg_method ∅ [] Hname)
           Hnames Htypes).
Defined.

Lemma method_registry_error_propagates_witness :
  attrib Examples.create_pool !! "name" = Some "CreatePool"
  /\ inbound_signature Examples.create_pool = Ok "s(bq)bas"
  /\ method_builder_body Samples.empty_registry "org.storage.Manager"
       Examples.create_pool (∅, [])
     = (Raise (OtherError "IntoDPError"), (∅, [Lookup "s(bq)bas"])).
Proof.
  split; [done|]. split; [by vm_compute|].
  apply (method_registry_error_propagates Samples.empty_registry
           "org.storage.Manager" Examples.create_pool "CreatePool" "s(bq)bas"
           (OtherError "IntoDPError") ∅ []);
    [done|repeat constructor; by eexists|by vm_compute|done].
Defined.

Lemma method_without_name_witness :
  attrib Samples.unnamed_method !! "name" = None
  /\ method_builder_body Examples.registry "org.storage.Manager"
       Samples.unnamed_method (∅, [])
     = (Raise (DPClientGenerationError "No name found for method."), (∅, [])).
Proof.
  split; [done|].
  exact (proj1 (method_without_name Examples.registry "org.storage.Manager"
                  Samples.unnamed_method ∅ [] eq_refl)).
Defined.

Lemma methods_are_built :
  method_builder_builder Examples.registry "org.storage.Manager"
    (Examples.interface [Examples.create_pool; Samples.get_version]) (∅, [])
  = (Ok tt,
     (fst (snd (method_builder_builder Examples.registry "org.storage.Manager"
                  (Examples.interface [Examples.create_pool; Samples.get_version])
                  (∅, []))),
      [Lookup "s(bq)bas"; Lookup ""])).
Proof. by vm_compute. Defined.

Lemma method_builder_lookups_witness :
  exists signatures,
    Forall2 (fun m signature => inbound_signature m = Ok signature)
      [Examples.create_pool; Samples.get_version] signatures
    /\ [Lookup "s(bq)bas"; Lookup ""] = [] ++ map Lookup signatures.
Proof.
  exact (method_builder_lookups Examples.registry "org.storage.Manager"
           (Examples.interface [Examples.create_pool; Samples.get_version])
           ∅ [] _ _ methods_are_built).
Defined.

Lemma method_builder_invokers_witness :
  exists invoker,
    fst (snd (method_builder_builder Examples.registry "org.storage.Manager"
                (Examples.interface [Examples.create_pool; Samples.get_version])
                (∅, []))) !! "CreatePool" = Some invoker
    /\ mi_name invoker = "CreatePool"
    /\ mi_interface_name invoker = "org.storage.Manager".
Proof.
  destruct (fst (snd (method_builder_builder Examples.registry
                        "org.storage.Manager"
                        (Examples.interface
                           [Examples.create_pool; Samples.get_version])
                        (∅, []))) !! "CreatePool") as [invoker|] eqn:Hn;
    [|vm_compute in Hn; discriminate].
  exists invoker. split; [done|].
  destruct (method_builder_invokers Examples.registry "org.storage.Manager"
              (Examples.interface [Examples.create_pool; Samples.get_version])
              [] _ _ methods_are_built "CreatePool" invoker Hn) as (H1 & H2 & _).
  by split.
Defined.

Lemma interface_without_name_witness :
  attrib Samples.unnamed_interface !! "name" = None
  /\ dbus_python_invoker_builder Examples.registry Samples.unnamed_interface (∅, [])
     = (Raise (DPClientGenerationError "No name found for interface."), (∅, [])).
Proof.
  split; [done|].
  exact (proj2 (proj2 (interface_without_name Examples.registry
                         Samples.unnamed_interface ∅ [] eq_refl))).
Defined.

Lemma invoker_builder_empty_interface_witness :
  attrib (Examples.interface []) !! "name" = Some "org.storage.Manager"
  /\ dbus_python_invoker_builder Examples.registry (Examples.interface []) (∅, [])
     = (Ok tt,
        (<["Properties" := PropertiesMember (mkClass "Properties" ∅)]>
           (<["Methods" := MethodsMember (mkClass "Methods" ∅)]> ∅),
         [])).
Proof.
  split; [done|].
  exact (invoker_builder_empty_interface Examples.registry (Examples.interface [])
           "org.storage.Manager" ∅ [] eq_refl eq_refl eq_refl).
Defined.
